(** * huberman-rlm: the interactive front end of huberman_cli.py

    A shallow embedding of the original logic of the repository: the
    transcript loader [load_transcripts], the prompt formatter
    [format_history], the log handler [RLMProgressHandler.emit] and the
    question round-trip of [main].

    Python [str] values are modelled as [string]; one [ascii] stands for
    one code point in the range 0..255.  Indices and lengths are [Z], as
    Python integers, so that [-1] (the "not found" result of [str.find])
    and negative slice bounds keep their meaning. *)

From Stdlib Require Import ZArith Lia List Ascii String DecimalString.
From stdpp Require Import gmap strings list fin_maps.

Local Open Scope string_scope.
Local Open Scope Z_scope.

(** ** Exceptions *)

(** The exceptions that matter for the control flow of the program.
    [OtherException] stands for any other subclass of Python's [Exception];
    [OtherBaseException] for any class outside [Exception] other than
    [KeyboardInterrupt] ([SystemExit], [GeneratorExit], a cancellation),
    which neither handler of [main] catches. *)
Inductive exn :=
  | IndexError
  | MarkupError (message : string)
  | OtherException (message : string)
  | EOFError
  | KeyboardInterrupt
  | OtherBaseException (message : string).

(** [isinstance(e, Exception)] *)
Definition is_Exception (e : exn) : bool :=
  match e with
  | KeyboardInterrupt | OtherBaseException _ => false
  | _ => true
  end.

(** [str(e)] *)
Definition str_of_exn (e : exn) : string :=
  match e with
  | IndexError => "list index out of range"
  | MarkupError message | OtherException message
  | OtherBaseException message => message
  | EOFError | KeyboardInterrupt => EmptyString
  end.

Inductive outcome (A : Type) :=
  | Returned (a : A)
  | Raised (e : exn).
Arguments Returned {A} a.
Arguments Raised {A} e.

Definition bind {A B} (m : outcome A) (k : A → outcome B) : outcome B :=
  match m with
  | Returned a => k a
  | Raised e => Raised e
  end.

Notation "x ←! m ; k" := (bind m (fun x => k))
  (at level 100, m at next level, right associativity).

(** ** Python's [str] and [list] primitives *)

Module Py.

Definition NL : string := String (ascii_of_nat 10) EmptyString.

Definition len (s : string) : Z := Z.of_nat (String.length s).

Fixpoint take (n : nat) (s : string) : string :=
  match n, s with
  | S n', String c s' => String c (take n' s')
  | _, _ => EmptyString
  end.

Fixpoint drop (n : nat) (s : string) : string :=
  match n, s with
  | S n', String _ s' => drop n' s'
  | _, _ => s
  end.

(** A slice bound [i] of a sequence of length [n]: negative bounds count
    from the end, and every bound is clamped to [0..n]. *)
Definition bound (n i : Z) : Z :=
  if i <? 0 then Z.max 0 (i + n) else Z.min i n.

(** [s[lo:hi]]; [None] is an omitted bound. *)
Definition slice (s : string) (lo hi : option Z) : string :=
  let n := len s in
  let a := from_option (bound n) 0 lo in
  let b := from_option (bound n) n hi in
  take (Z.to_nat (b - a)) (drop (Z.to_nat a) s).

(** [s.startswith(p)] *)
Fixpoint startswith (s p : string) {struct p} : bool :=
  match p, s with
  | EmptyString, _ => true
  | String a p', String b s' => if decide (a = b) then startswith s' p' else false
  | String _ _, EmptyString => false
  end.

(** [s.endswith(p)] *)
Definition endswith (s p : string) : bool :=
  bool_decide (String.length p ≤ String.length s)%nat
  && bool_decide (drop (String.length s - String.length p) s = p).

(** Offset of the first occurrence of [sub] in [s]. *)
Fixpoint index_of (sub s : string) : option nat :=
  if startswith s sub then Some 0%nat
  else match s with
       | EmptyString => None
       | String _ s' => S <$> index_of sub s'
       end.

(** [s.find(sub)] *)
Definition find (s sub : string) : Z :=
  match index_of sub s with
  | Some i => Z.of_nat i
  | None => -1
  end.

(** [sub in s] *)
Definition isin (sub s : string) : bool :=
  bool_decide (is_Some (index_of sub s)).

(** [str.isspace] on one character of the range 0..255: the ASCII
    controls 9..13 and 28..31, the space, NEL (133) and the no-break
    space (160). *)
Definition isspace (c : ascii) : bool :=
  let n := nat_of_ascii c in
  ((9 <=? n) && (n <=? 13) || (28 <=? n) && (n <=? 32)
   || (n =? 133) || (n =? 160))%nat.

Fixpoint lstrip (s : string) : string :=
  match s with
  | String c s' => if isspace c then lstrip s' else s
  | EmptyString => EmptyString
  end.

Fixpoint rstrip (s : string) : string :=
  match s with
  | EmptyString => EmptyString
  | String c s' =>
      match rstrip s' with
      | EmptyString => if isspace c then EmptyString else String c EmptyString
      | r => String c r
      end
  end.

(** [s.strip()] *)
Definition strip (s : string) : string := rstrip (lstrip s).

(** [s.split(sep, maxsplit)] for a non-empty [sep]; [maxsplit = None] is
    Python's default (no limit).  The scan restarts after each separator
    found, so the pieces are cut at non-overlapping occurrences, left to
    right.  [fuel] bounds the number of cuts. *)
Fixpoint split_go (fuel : nat) (maxsplit : option nat) (sep s : string)
  : list string :=
  match fuel with
  | O => [s]
  | S fuel' =>
      match maxsplit with
      | Some O => [s]
      | _ =>
          match index_of sep s with
          | None => [s]
          | Some i =>
              take i s ::
                split_go fuel' (Nat.pred <$> maxsplit) sep
                  (drop (i + String.length sep) s)
          end
      end
  end.

Definition split (s sep : string) (maxsplit : option nat) : list string :=
  split_go (S (String.length s)) maxsplit sep s.

(** [s.replace(old, new)] for a non-empty [old]. *)
Fixpoint replace_go (fuel : nat) (old new s : string) : string :=
  match fuel with
  | O => s
  | S fuel' =>
      match index_of old s with
      | None => s
      | Some i =>
          take i s ++ new ++
            replace_go fuel' old new (drop (i + String.length old) s)
      end
  end.

Definition replace (s old new : string) : string :=
  replace_go (S (String.length s)) old new s.

(** [str(i)] for a natural number. *)
Definition str_of_nat (i : nat) : string :=
  NilEmpty.string_of_uint (Nat.to_uint i).

(** [l[i]] on a list: [IndexError] out of range. *)
Definition getitem {A} (l : list A) (i : nat) : outcome A :=
  match l !! i with
  | Some x => Returned x
  | None => Raised IndexError
  end.

End Py.

(** ** The progress interpreter: [RLMProgressHandler.emit] *)

(** What [emit] puts on the console for one log record, in order: the rule
    "Step n", the reasoning panel and the code panel.  Their rendering by
    the console library is not part of the model. *)
Inductive ProgressEvent :=
  | IterationStart (index : string)
  | ReasoningBlock (text : string)
  | CodeBlock (text : string).

(** Lines 43-52: the two segments of the body of the message. *)
Definition segments (content : string) : string * string :=
  let reasoning_start := Py.find content "Reasoning:" + Py.len "Reasoning:" in
  let code_start := Py.find content "Code:" in
  if code_start >? 0 then
    (Py.strip (Py.slice content (Some reasoning_start) (Some code_start)),
     Py.strip (Py.slice content (Some (code_start + Py.len "Code:")) None))
  else
    (Py.strip (Py.slice content (Some reasoning_start) None), EmptyString).

(** Line 55. *)
Definition display_reasoning (reasoning : string) : string :=
  if Py.len reasoning >? 500
  then Py.slice reasoning None (Some 500) ++ "..."
  else reasoning.

(** Lines 64-67: the [for ... break] loop over the fence prefixes. *)
Fixpoint drop_first_prefix (prefixes : list string) (code : string) : string :=
  match prefixes with
  | [] => code
  | prefix :: rest =>
      if Py.startswith code prefix
      then Py.slice code (Some (Py.len prefix)) None
      else drop_first_prefix rest code
  end.

(** Lines 63-70. *)
Definition strip_fence (code : string) : string :=
  let code := Py.strip code in
  let code := drop_first_prefix ["```python"; "```"] code in
  let code := if Py.endswith code "```"
              then Py.slice code None (Some (-3)) else code in
  Py.strip code.

(** Lines 72-73. *)
Definition display_code (code : string) : string :=
  if Py.len code >? 800
  then Py.slice code None (Some 800) ++ Py.NL ++ "# ... (truncated)"
  else code.

(** Lines 54-81: the panels printed for the two segments; an empty string
    is false. *)
Definition body_events (reasoning code : string) : list ProgressEvent :=
  (if bool_decide (reasoning = EmptyString) then []
   else [ReasoningBlock (display_reasoning reasoning)])
  ++
  (if bool_decide (code = EmptyString) then []
   else [CodeBlock (display_code (strip_fence code))]).

(** Lines 28-81. *)
Definition emit (msg : string) : outcome (list ProgressEvent) :=
  if negb (Py.isin "RLM iteration" msg) then Returned []
  else
    let parts := Py.split msg Py.NL (Some 1%nat) in
    header ←! Py.getitem parts 0;
    after ←! Py.getitem (Py.split header "iteration" None) 1;
    first ←! Py.getitem (Py.split (Py.strip after) "/" None) 0;
    let iter_num := Py.strip first in
    let step := IterationStart iter_num in
    match parts with
    | [_; content] =>
        if negb (Py.isin "Reasoning:" content) then Returned [step]
        else
          let '(reasoning, code) := segments content in
          Returned (step :: body_events reasoning code)
    | _ => Returned [step]
    end.

(** ** The corpus loader: [load_transcripts] *)

(** Offset of the last occurrence of the character [c]. *)
Fixpoint rindex_char (c : ascii) (s : string) : option nat :=
  match s with
  | EmptyString => None
  | String x s' =>
      match rindex_char c s' with
      | Some i => Some (S i)
      | None => if decide (x = c) then Some 0%nat else None
      end
  end.

(** [pathlib]'s [PurePath.stem] of a file name: the name without its last
    suffix; a dot in first or last position starts no suffix. *)
Definition stem (name : string) : string :=
  match rindex_char "." name with
  | Some i =>
      if bool_decide (0 < i < String.length name - 1)%nat
      then Py.take i name else name
  | None => name
  end.

(** Lines 99-100, on the stem of the file. *)
Definition title_of_stem (stem : string) : string :=
  let parts := Py.split stem "_" (Some 2%nat) in
  match parts with
  | _ :: _ :: third :: _ =>
      Py.replace (Py.replace third "_" " ") ".vtt" EmptyString
  | _ => stem
  end.

Definition title_of (name : string) : string := title_of_stem (stem name).

(** A directory entry: a readable text file, its name and its content. *)
Record file := { file_name : string; file_text : string }.

(** [TRANSCRIPTS_DIR.glob("*.txt")], in the order the directory is
    enumerated. *)
Definition glob_txt (dir : list file) : list file :=
  filter (λ f, Py.endswith (file_name f) ".txt" = true) dir.

(** Lines 96-102: [transcripts[title] = text] overwrites an earlier entry
    with the same title. *)
Definition load_transcripts (dir : list file) : gmap string string :=
  foldl (λ transcripts f, <[title_of (file_name f) := file_text f]> transcripts)
        ∅ (glob_txt dir).

(** ** The history formatter: [format_history] *)

(** [sep.join(lines)] *)
Fixpoint join (sep : string) (lines : list string) : string :=
  match lines with
  | [] => EmptyString
  | [l] => l
  | l :: rest => l ++ sep ++ join sep rest
  end.

(** [enumerate(l, start)] *)
Fixpoint enumerate {A} (start : nat) (l : list A) : list (nat * A) :=
  match l with
  | [] => []
  | x :: l' => (start, x) :: enumerate (S start) l'
  end.

Definition question_line (i : nat) (q : string) : string :=
  Py.NL ++ "Q" ++ Py.str_of_nat i ++ ": " ++ q.
Definition answer_line (i : nat) (a : string) : string :=
  "A" ++ Py.str_of_nat i ++ ": " ++ a.

(** Lines 105-111. *)
Definition format_history (history : list (string * string)) : string :=
  match history with
  | [] => "No previous conversation."
  | _ =>
      let lines :=
        foldl (λ lines '(i, (q, a)),
                 (lines ++ [question_line i q; answer_line i a])%list)
              ["Previous conversation:"] (enumerate 1 history) in
      join Py.NL lines
  end.

(** ** The session controller: the loop of [main] *)

(** What the program hands to the shared console. *)
Inductive renderable :=
  | Blank
  | Markup (text : string)          (* a string, parsed for console markup *)
  | Rule (title : string)           (* the title is parsed for markup *)
  | MarkdownPanel (text : string)
  | MarkupPanel (text : string)     (* a panel around a markup string *)
  | Prompt
  | HelpTable
  | Welcome (num_transcripts : nat)
  | Clear.

(** The value of a [sources] attribute. *)
Inductive sources_value :=
  | SourceList (l : list string)
  | SourceText (s : string).

(** The object returned by the reasoning engine: [answer] and [sources]
    are read with [getattr] and may be missing; [result_str] is
    [str(result)]. *)
Record Prediction := {
  result_answer : option string;
  result_sources : option sources_value;
  result_str : string;
}.

(** [getattr(result, 'answer', str(result))] *)
Definition answer_of (result : Prediction) : string :=
  default (result_str result) (result_answer result).

(** The truth value of [sources] at line 128 and the text of the panel
    (the bullet of line 130 is written here in UTF-8). *)
Definition sources_text (result : Prediction) : option string :=
  match result_sources result with
  | None | Some (SourceList []) => None
  | Some (SourceList l) => Some (join Py.NL ((λ s, "• " ++ s) <$> l))
  | Some (SourceText s) =>
      if bool_decide (s = EmptyString) then None else Some s
  end.

(** [question.lower()] on the range 0..255. *)
Definition lower_char (c : ascii) : ascii :=
  let n := nat_of_ascii c in
  if ((65 <=? n) && (n <=? 90) || (192 <=? n) && (n <=? 214)
      || (216 <=? n) && (n <=? 222))%nat
  then ascii_of_nat (n + 32) else c.

Fixpoint lower (s : string) : string :=
  match s with
  | EmptyString => EmptyString
  | String c s' => String (lower_char c) (lower s')
  end.

(** How one pass through the body of [while True] ends. *)
Inductive control :=
  | Continue
  | Break
  | Uncaught (e : exn).

Section Session.

(** The console (whose calls may raise, as when a markup string has a
    closing tag that matches no open tag) and the reasoning engine, called
    with the corpus, the formatted history and the question. *)
Variable console : renderable → outcome unit.
Variable rlm : gmap string string → string → string → outcome Prediction.

(** Lines 114-131. *)
Definition display_answer (result : Prediction) : outcome unit :=
  _ ←! console Blank;
  _ ←! console (Rule "[bold green]Answer[/bold green]");
  _ ←! console Blank;
  _ ←! console (MarkdownPanel (answer_of result));
  match sources_text result with
  | Some text => _ ←! console Blank; console (MarkupPanel text)
  | None => Returned ()
  end.

(** Lines 220-229: the body of the inner [try], as one computation whose
    last step is the value appended to the history. *)
Definition round_trip (transcripts : gmap string string)
    (history : list (string * string)) (question : string)
  : outcome (string * string) :=
  result ←! rlm transcripts (format_history history) question;
  _ ←! display_answer result;
  Returned (question, answer_of result).

(** Lines 220-231, with the handler [except Exception]. *)
Definition ask (transcripts : gmap string string)
    (history : list (string * string)) (question : string)
  : list (string * string) * control :=
  match round_trip transcripts history question with
  | Returned entry =>
      ((history ++ [entry])%list,
       match console Blank with Returned _ => Continue | Raised e => Uncaught e end)
  | Raised e =>
      if is_Exception e then
        (history,
         match
           (_ ←! console (Markup (Py.NL ++ "[red]Error: " ++ str_of_exn e ++ "[/red]"));
            console Blank)
         with Returned _ => Continue | Raised e' => Uncaught e' end)
      else (history, Uncaught e)
  end.

Definition elide (limit : Z) (s : string) : string :=
  Py.slice s None (Some limit) ++ (if Py.len s >? limit then "..." else EmptyString).

Fixpoint print_all (l : list renderable) : outcome unit :=
  match l with
  | [] => Returned ()
  | r :: l' => _ ←! console r; print_all l'
  end.

(** Lines 205-213. *)
Definition show_history (history : list (string * string)) : outcome unit :=
  _ ←! match history with
        | [] => console (Markup "[dim]No history yet.[/dim]")
        | _ =>
            print_all
              (flat_map
                 (λ '(i, (q, a)),
                   [Markup (Py.NL ++ "[cyan]Q" ++ Py.str_of_nat i ++ ":[/cyan] " ++ q);
                    Markup ("[green]A" ++ Py.str_of_nat i ++ ":[/green] " ++ elide 200 a)])
                 (enumerate 1 history))
        end;
  console Blank.

Definition after_print (m : outcome unit) : control :=
  match m with
  | Returned _ => Continue
  | Raised e => Uncaught e
  end.

(** Lines 188-231: the body of the outer [try]. *)
Definition try_body (transcripts : gmap string string)
    (history : list (string * string)) (input : outcome string)
  : list (string * string) * control :=
  match (_ ←! console Prompt; input) with
  | Raised e => (history, Uncaught e)
  | Returned text =>
      let question := Py.strip text in
      if bool_decide (question = EmptyString) then (history, Continue)
      else
        let cmd := lower question in
        if bool_decide (cmd ∈ ["quit"; "exit"; "q"]) then (history, Break)
        else if bool_decide (cmd = "help") then
          (history, after_print (_ ←! console HelpTable; console Blank))
        else if bool_decide (cmd = "reset") then
          ([], after_print (_ ←! console Clear;
                             console (Welcome (size transcripts))))
        else if bool_decide (cmd = "history") then
          (history, after_print (show_history history))
        else
          match
            (_ ←! console Blank;
             _ ←! match history with
                   | [] => Returned ()
                   | _ => console (Markup ("[dim]Context: "
                              ++ Py.str_of_nat (length history)
                              ++ " previous turn(s)[/dim]"))
                   end;
             console (Rule ("[bold]" ++ elide 60 question ++ "[/bold]")))
          with
          | Raised e => (history, Uncaught e)
          | Returned _ => ask transcripts history question
          end
  end.

(** Lines 187-234: one pass through the loop; the outer handler turns
    [KeyboardInterrupt] and [EOFError] into [break], any other exception
    leaves [main]. *)
Definition loop_body (transcripts : gmap string string)
    (history : list (string * string)) (input : outcome string)
  : list (string * string) * control :=
  match try_body transcripts history input with
  | (history', Uncaught KeyboardInterrupt)
  | (history', Uncaught EOFError) => (history', Break)
  | r => r
  end.

End Session.

(** ** Vocabulary of the statements *)

(** The text of [s] before the first occurrence of [sep] (all of [s] when
    there is none), and the text after that occurrence. *)
Definition before (sep s : string) : string :=
  match Py.index_of sep s with
  | Some i => Py.take i s
  | None => s
  end.

Definition after (sep s : string) : string :=
  match Py.index_of sep s with
  | Some i => Py.drop (i + String.length sep) s
  | None => EmptyString
  end.

(** The first line of a message and what follows its first line break. *)
Definition first_line (msg : string) : string := before Py.NL msg.
Definition body_of (msg : string) : option string :=
  if Py.isin Py.NL msg then Some (after Py.NL msg) else None.

(** ** Reading a formatted history back *)





(** The lines of the text for the pairs of a history, numbered from [n]. *)
Definition pair_lines (n : nat) (history : list (string * string))
  : list string :=
  flat_map (λ '(i, (q, a)),
              [EmptyString;
               "Q" ++ Py.str_of_nat i ++ ": " ++ q;
               "A" ++ Py.str_of_nat i ++ ": " ++ a])
           (enumerate n history).

(** ** Vocabulary for the corpus *)

(** [s] with every underscore turned into a space. *)
Fixpoint underscores_to_spaces (s : string) : string :=
  match s with
  | EmptyString => EmptyString
  | String c s' =>
      String (if decide (c = "_"%char) then " "%char else c)
             (underscores_to_spaces s')
  end.

(** The titles derived from the text files of a directory, in the order of
    enumeration. *)
Definition titles (dir : list file) : list string :=
  (λ f, title_of (file_name f)) <$> glob_txt dir.

(** A dictionary filled in a loop with [d[key(x)] = value(x)]. *)
Definition fill {A : Type} (key value : A → string)
    (m : gmap string string) (l : list A) : gmap string string :=
  foldl (λ m x, <[key x := value x]> m) m l.

(** ** Inputs of the examples *)

(** A line on which the marker stands after the first line break. *)
Definition late_marker : string := "note" ++ Py.NL ++ "RLM iteration 1/5".

(** The example line of the specification. *)
Definition example_line : string :=
  "RLM iteration 3/20" ++ Py.NL ++ "Reasoning: because X" ++ Py.NL
  ++ "Code: print(1)".

(** A text of [n] characters. *)
Fixpoint filler (n : nat) : string :=
  match n with
  | O => EmptyString
  | S n' => String "x" (filler n')
  end.

(** A body in which "Code:" stands at offset 0. *)
Definition code_first_body : string :=
  "Code: print(1)" ++ Py.NL ++ "Reasoning: r".

(** The example history of the specification. *)
Definition example_history : list (string * string) :=
  [("Q1?", "A1."); ("Q2?", "A2.")].


(** Two files whose names give the same title, and a file whose name gives
    the empty title. *)
Definition colliding_dir : list file :=
  [ {| file_name := "ep_01_Sleep.txt"; file_text := "first" |};
    {| file_name := "ep_02_Sleep.txt"; file_text := "second" |} ].
Definition untitled_dir : list file :=
  [ {| file_name := "ep_01_.txt"; file_text := "text" |} ].

(** A directory with two transcripts and another file. *)
Definition sample_dir : list file :=
  [ {| file_name := "ep_01_How_to_Focus.txt"; file_text := "focus" |};
    {| file_name := "README.md"; file_text := "readme" |};
    {| file_name := "notes.txt"; file_text := "notes" |} ].

(** A console that, like the console library of the program, rejects a
    markup string with the closing tag "[/b]" (none of the texts printed
    here opens a "[b]"), with a message that quotes the tag and gives its
    offset; and an engine that answers with such a text as its sources. *)
Definition strict_console (r : renderable) : outcome unit :=
  match r with
  | MarkupPanel text | Markup text | Rule text =>
      match Py.index_of "[/b]" text with
      | Some offset =>
          Raised (MarkupError ("closing tag '[/b]' at position "
                               ++ Py.str_of_nat offset
                               ++ " doesn't match any open tag"))
      | None => Returned ()
      end
  | _ => Returned ()
  end.

Definition quoting_engine (transcripts : gmap string string)
    (conversation_history question : string) : outcome Prediction :=
  Returned {| result_answer := Some "Sleep well.";
              result_sources := Some (SourceText "[/b] episode 12");
              result_str := "Prediction" |}.

(** ** The loop of [main] over a whole session *)

(** What the user does at one prompt: a line typed, or an interrupt. *)
Inductive keyboard :=
  | Typed (line : string)
  | CtrlC.

(** [input()] for one prompt. *)
Definition read (key : keyboard) : outcome string :=
  match key with
  | Typed line => Returned line
  | CtrlC => Raised KeyboardInterrupt
  end.

(** Lines 186-234: [while True] over what the user does; when the input is
    exhausted [input()] raises [EOFError]. *)
Fixpoint main_loop (console : renderable → outcome unit)
    (rlm : gmap string string → string → string → outcome Prediction)
    (transcripts : gmap string string)
    (history : list (string * string)) (stdin : list keyboard)
  : list (string * string) * control :=
  match stdin with
  | [] => loop_body console rlm transcripts history (Raised EOFError)
  | key :: stdin' =>
      match loop_body console rlm transcripts history (read key) with
      | (history', Continue) =>
          main_loop console rlm transcripts history' stdin'
      | r => r
      end
  end.

(** A line that is neither blank nor one of the commands. *)
Definition is_question (text : string) : bool :=
  let question := Py.strip text in
  negb (bool_decide (question = EmptyString))
  && negb (bool_decide (lower question
             ∈ ["quit"; "exit"; "q"; "help"; "reset"; "history"])).

(** The panels allowed after the step of one record. *)
Definition is_panel_list (events : list ProgressEvent) : Prop :=
  match events with
  | [] | [ReasoningBlock _] | [CodeBlock _]
  | [ReasoningBlock _; CodeBlock _] => True
  | _ => False
  end.

(** The bounds on the text of an event: a reasoning is not empty and has at
    most 500 characters and the marker "...", a code has at most 800
    characters and the line "# ... (truncated)". *)
Definition within_display_bounds (event : ProgressEvent) : Prop :=
  match event with
  | IterationStart _ => True
  | ReasoningBlock text => text ≠ EmptyString ∧ Py.len text ≤ 503
  | CodeBlock text => Py.len text ≤ 818
  end.

(** ** The title rule in other words *)

(** [s] without the occurrences of [tok], met from left to right: when
    [tok] starts at a character, this character and the [skip] characters
    after it are left out; any other character is kept. *)
Fixpoint delete_go (tok : string) (skip : nat) (s : string) : string :=
  match s with
  | EmptyString => EmptyString
  | String c s' =>
      match skip with
      | S skip' => delete_go tok skip' s'
      | O =>
          if Py.startswith (String c s') tok
          then delete_go tok (String.length tok - 1) s'
          else String c (delete_go tok 0 s')
      end
  end.

Definition delete_all (tok s : string) : string := delete_go tok 0 s.

(** The title in the words of the specification: the stem is cut into at
    most three parts, and the third part, with spaces for underscores, loses
    a ".vtt" suffix; with fewer parts the title is the stem. *)
Definition strip_vtt_suffix (s : string) : string :=
  if Py.endswith s ".vtt" then Py.slice s None (Some (-4)) else s.

Definition title_as_worded (name : string) : string :=
  let st := stem name in
  match Py.split st "_" (Some 2%nat) with
  | _ :: _ :: third :: _ => strip_vtt_suffix (underscores_to_spaces third)
  | _ => st
  end.

(** A stem [a_b_rest] whose third part is empty or made of ".vtt" only. *)
Fixpoint vtt_repeat (n : nat) : string :=
  match n with
  | O => EmptyString
  | S n' => ".vtt" ++ vtt_repeat n'
  end.

Definition vtt_only_third (st : string) : Prop :=
  ∃ a b n,
    Py.isin "_" a = false ∧ Py.isin "_" b = false ∧
    st = a ++ "_" ++ b ++ "_" ++ vtt_repeat n.

(** A file name with ".vtt" inside its third part. *)
Definition inner_vtt_name : string := "ep_01_my.vtt_notes.txt".

(** * Facts about the primitives *)

Section StringFacts.

Local Arguments String.append : simpl nomatch.

Implicit Types (s p a b sub sep : string) (c : ascii) (n i : nat).

Lemma str_app_nil_r s : s ++ EmptyString = s.
Proof. induction s; simpl; congruence. Qed.

Lemma str_app_assoc a b s : (a ++ b) ++ s = a ++ (b ++ s).
Proof. induction a; simpl; congruence. Qed.

Lemma str_length_app a b :
  String.length (a ++ b) = (String.length a + String.length b)%nat.
Proof. induction a; simpl; congruence. Qed.

Lemma str_take_app_length a b : Py.take (String.length a) (a ++ b) = a.
Proof. induction a; simpl; [by destruct b | congruence]. Qed.

Lemma str_drop_app_length a b : Py.drop (String.length a) (a ++ b) = b.
Proof. induction a; simpl; [by destruct b | congruence]. Qed.

Lemma str_drop_app_plus a b n :
  Py.drop (String.length a + n) (a ++ b) = Py.drop n b.
Proof. induction a; simpl; [done | congruence]. Qed.

Lemma str_take_drop n s : Py.take n s ++ Py.drop n s = s.
Proof.
  revert s; induction n as [|n IH]; intros [|c s]; simpl; try done.
  by rewrite IH.
Qed.

Lemma str_length_take n s :
  String.length (Py.take n s) = Nat.min n (String.length s).
Proof.
  revert s; induction n as [|n IH]; intros [|c s]; simpl; try done.
  by rewrite IH.
Qed.

Lemma str_length_drop n s :
  String.length (Py.drop n s) = (String.length s - n)%nat.
Proof.
  revert s; induction n as [|n IH]; intros [|c s]; simpl; try done.
Qed.

Lemma str_take_all n s : (String.length s ≤ n)%nat → Py.take n s = s.
Proof.
  revert s; induction n as [|n IH]; intros [|c s]; simpl; try done; try lia.
  intros. rewrite IH; [done | lia].
Qed.

Lemma str_drop_all n s : (String.length s ≤ n)%nat → Py.drop n s = EmptyString.
Proof.
  revert s; induction n as [|n IH]; intros [|c s]; simpl; try done; try lia.
  intros. apply IH. lia.
Qed.

Lemma str_drop_drop n i s : Py.drop n (Py.drop i s) = Py.drop (i + n) s.
Proof.
  revert s; induction i as [|i IH]; intros [|c s]; simpl; try done.
  by destruct n.
Qed.

(** *** [startswith] *)

Lemma startswith_app s p : Py.startswith (p ++ s) p = true.
Proof. induction p; simpl; [done |]. by rewrite decide_True. Qed.

Lemma startswith_spec s p :
  Py.startswith s p = true ↔ ∃ r, s = p ++ r.
Proof.
  split.
  - revert s; induction p as [|a p IH]; intros s H; simpl in *.
    + by exists s.
    + destruct s as [|b s]; [done |].
      destruct (decide (a = b)) as [->|]; [| done].
      destruct (IH _ H) as [r ->]. by exists r.
  - intros [r ->]. apply startswith_app.
Qed.

Lemma startswith_length s p :
  Py.startswith s p = true → (String.length p ≤ String.length s)%nat.
Proof.
  intros [r ->]%startswith_spec. rewrite str_length_app. lia.
Qed.

(** *** [index_of], [find] and [in] *)

Lemma index_of_Some sub s i :
  Py.index_of sub s = Some i ↔
    Py.startswith (Py.drop i s) sub = true ∧ (i ≤ String.length s)%nat ∧
    ∀ j, (j < i)%nat → Py.startswith (Py.drop j s) sub = false.
Proof.
  revert i; induction s as [|c s IH]; intros i.
  - cbn [Py.index_of]. destruct (Py.startswith EmptyString sub) eqn:E.
    + split.
      * intros [= <-]. simpl. repeat split; [done | lia..].
      * intros (_ & Hi & _). simpl in Hi. by replace i with 0%nat by lia.
    + split; [done |]. intros (H & _ & _).
      destruct i; simpl in H; congruence.
  - cbn [Py.index_of]. destruct (Py.startswith (String c s) sub) eqn:E.
    + split.
      * intros [= <-]. simpl. repeat split; [done | lia..].
      * intros (_ & _ & Hj). destruct i as [|i]; [done |].
        specialize (Hj 0%nat ltac:(lia)). simpl in Hj. congruence.
    + destruct (Py.index_of sub s) as [k|]; simpl.
      * split.
        -- intros [= <-]. destruct (IH k) as [(H1 & H2 & H3) _]; [done |].
           simpl. repeat split; [done | lia |].
           intros [|j] Hj; simpl; [done |]. apply H3. lia.
        -- intros (H1 & H2 & H3). destruct i as [|i].
           { simpl in H1. congruence. }
           f_equal.
           assert (Some k = Some i) as Hi; [| congruence].
           apply IH. simpl in *. repeat split; [done | lia |].
           intros j Hj. apply (H3 (S j)). lia.
      * split; [done |]. intros (H1 & H2 & H3). destruct i as [|i].
        { simpl in H1. congruence. }
        assert (None = Some i) as Hi; [| congruence].
        apply IH. simpl in *. repeat split; [done | lia |].
        intros j Hj. apply (H3 (S j)). lia.
Qed.

Lemma index_of_None sub s :
  Py.index_of sub s = None ↔ ∀ j, Py.startswith (Py.drop j s) sub = false.
Proof.
  split.
  - induction s as [|c s IH]; cbn [Py.index_of]; intros H j.
    + destruct (Py.startswith EmptyString sub) eqn:E; [done |].
      by destruct j.
    + destruct (Py.startswith (String c s) sub) eqn:E; [done |].
      destruct (Py.index_of sub s); [done |].
      destruct j as [|j]; simpl; [done |]. by apply IH.
  - intros H. destruct (Py.index_of sub s) as [i|] eqn:E; [| done].
    apply index_of_Some in E as (E & _). by rewrite H in E.
Qed.

Lemma index_of_le sub s i :
  Py.index_of sub s = Some i →
  (i + String.length sub ≤ String.length s)%nat.
Proof.
  intros (H & Hi & _)%index_of_Some.
  apply startswith_length in H. rewrite str_length_drop in H. lia.
Qed.

Lemma index_of_split sub s i :
  Py.index_of sub s = Some i →
  s = Py.take i s ++ sub ++ Py.drop (i + String.length sub) s.
Proof.
  intros (H & _)%index_of_Some.
  apply startswith_spec in H as [r Hr].
  rewrite <- str_drop_drop, Hr, str_drop_app_length, <- Hr. by rewrite str_take_drop.
Qed.

Lemma isin_true sub s :
  Py.isin sub s = true ↔ ∃ i, Py.index_of sub s = Some i.
Proof.
  unfold Py.isin. rewrite bool_decide_eq_true. unfold is_Some. done.
Qed.

Lemma isin_false sub s :
  Py.isin sub s = false ↔ Py.index_of sub s = None.
Proof.
  unfold Py.isin. rewrite bool_decide_eq_false, <- eq_None_not_Some. done.
Qed.

Lemma find_index_of sub s i :
  Py.find s sub = Z.of_nat i ↔ Py.index_of sub s = Some i.
Proof.
  unfold Py.find. destruct (Py.index_of sub s); split; intros H;
    try (f_equal; lia); try lia; try done. by injection H as ->.
Qed.

Lemma find_absent sub s :
  Py.find s sub = -1 ↔ Py.index_of sub s = None.
Proof.
  unfold Py.find. destruct (Py.index_of sub s); split; intros H;
    try lia; done.
Qed.

(** *** [split] and [replace] *)

Lemma split_go_cons fuel m sep s :
  ∃ x l, Py.split_go fuel m sep s = x :: l.
Proof.
  destruct fuel as [|fuel]; simpl; [by eauto |].
  destruct m as [[|m]|]; [by eauto | |];
    destruct (Py.index_of sep s); by eauto.
Qed.

Lemma split_go_fuel fuel1 fuel2 m sep s :
  sep ≠ EmptyString →
  (String.length s < fuel1)%nat → (String.length s < fuel2)%nat →
  Py.split_go fuel1 m sep s = Py.split_go fuel2 m sep s.
Proof.
  intros Hsep. revert fuel2 m s.
  induction fuel1 as [|fuel1 IH]; intros fuel2 m s H1 H2; [lia |].
  destruct fuel2 as [|fuel2]; [lia |]. simpl.
  assert (∀ i, Py.index_of sep s = Some i →
               (String.length (Py.drop (i + String.length sep) s)
                < String.length s)%nat) as Hlt.
  { intros i Hi%index_of_le. rewrite str_length_drop.
    destruct sep; [done |]. simpl in *. lia. }
  destruct m as [[|m]|]; [done | |];
    (destruct (Py.index_of sep s) as [i|] eqn:E; [| done]);
    f_equal; specialize (Hlt i eq_refl); apply IH; lia.
Qed.

Lemma split_unfold s sep m :
  sep ≠ EmptyString →
  Py.split s sep m =
    match m with
    | Some O => [s]
    | _ =>
        match Py.index_of sep s with
        | None => [s]
        | Some i =>
            Py.take i s ::
              Py.split (Py.drop (i + String.length sep) s) sep (Nat.pred <$> m)
        end
    end.
Proof.
  intros Hsep. unfold Py.split at 1. cbn [Py.split_go].
  destruct m as [[|m]|]; [done | |];
    (destruct (Py.index_of sep s) as [i|] eqn:E; [| done]);
    f_equal; unfold Py.split; apply split_go_fuel; try done;
    apply index_of_le in E; rewrite str_length_drop;
    destruct sep; simpl in *; done || lia.
Qed.

Lemma split_first s sep m :
  sep ≠ EmptyString → m ≠ Some 0%nat →
  Py.split s sep m !! 0%nat = Some (before sep s).
Proof.
  intros Hsep Hm. rewrite split_unfold by done. unfold before.
  destruct m as [[|m]|]; [done | |]; by destruct (Py.index_of sep s).
Qed.

Lemma split_second s sep :
  sep ≠ EmptyString →
  Py.split s sep None !! 1%nat =
    if Py.isin sep s then Some (before sep (after sep s)) else None.
Proof.
  intros Hsep. rewrite split_unfold by done. unfold after, Py.isin.
  destruct (Py.index_of sep s) as [i|] eqn:E; simpl; [| done].
  by apply split_first.
Qed.

Lemma split_once s sep :
  sep ≠ EmptyString →
  Py.split s sep (Some 1%nat) =
    if Py.isin sep s then [before sep s; after sep s] else [s].
Proof.
  intros Hsep. rewrite split_unfold by done. unfold before, after, Py.isin.
  destruct (Py.index_of sep s) as [i|] eqn:E; simpl; [| done].
  by rewrite split_unfold.
Qed.

Lemma replace_go_fuel fuel1 fuel2 old new s :
  old ≠ EmptyString →
  (String.length s < fuel1)%nat → (String.length s < fuel2)%nat →
  Py.replace_go fuel1 old new s = Py.replace_go fuel2 old new s.
Proof.
  intros Hold. revert fuel2 s.
  induction fuel1 as [|fuel1 IH]; intros fuel2 s H1 H2; [lia |].
  destruct fuel2 as [|fuel2]; [lia |]. simpl.
  destruct (Py.index_of old s) as [i|] eqn:E; [| done].
  do 2 f_equal. apply index_of_le in E.
  apply IH; rewrite str_length_drop; destruct old; simpl in *; done || lia.
Qed.

Lemma replace_unfold s old new :
  old ≠ EmptyString →
  Py.replace s old new =
    match Py.index_of old s with
    | None => s
    | Some i =>
        Py.take i s ++ new ++
          Py.replace (Py.drop (i + String.length old) s) old new
    end.
Proof.
  intros Hold. unfold Py.replace at 1. cbn [Py.replace_go].
  destruct (Py.index_of old s) as [i|] eqn:E; [| done].
  do 2 f_equal. unfold Py.replace. apply replace_go_fuel; try done;
    apply index_of_le in E; rewrite str_length_drop;
    destruct old; simpl in *; done || lia.
Qed.

End StringFacts.

(** *** One-character separators and [strip] *)

Section StripFacts.

Local Arguments String.append : simpl nomatch.

Implicit Types (s a b : string) (c x y : ascii).

Lemma startswith_char c x s :
  Py.startswith (String x s) (String c EmptyString) = bool_decide (c = x).
Proof.
  simpl. destruct (decide (c = x));
    [by rewrite bool_decide_eq_true_2 | by rewrite bool_decide_eq_false_2].
Qed.

Lemma before_char_cons c x s :
  before (String c EmptyString) (String x s) =
    if decide (c = x) then EmptyString
    else String x (before (String c EmptyString) s).
Proof.
  unfold before. cbn [Py.index_of]. rewrite startswith_char.
  destruct (decide (c = x)) as [->|Hne].
  - by rewrite bool_decide_eq_true_2.
  - rewrite bool_decide_eq_false_2 by done.
    by destruct (Py.index_of _ s).
Qed.

Lemma before_char_nil c :
  before (String c EmptyString) EmptyString = EmptyString.
Proof. done. Qed.

Lemma before_char_app c a b :
  Py.isin (String c EmptyString) a = false →
  before (String c EmptyString) (a ++ String c b) = a.
Proof.
  induction a as [|x a IH]; intros H.
  - simpl. rewrite before_char_cons. by rewrite decide_True.
  - simpl. rewrite before_char_cons.
    apply isin_false in H. cbn [Py.index_of] in H.
    rewrite startswith_char in H.
    destruct (decide (c = x)) as [->|Hne].
    + by rewrite bool_decide_eq_true_2 in H.
    + rewrite bool_decide_eq_false_2 in H by done.
      f_equal. apply IH. apply isin_false.
      by destruct (Py.index_of _ a).
Qed.

Lemma lstrip_idemp s : Py.lstrip (Py.lstrip s) = Py.lstrip s.
Proof.
  induction s as [|x s IH]; simpl; [done |].
  destruct (Py.isspace x) eqn:E; [done |]. simpl. by rewrite E.
Qed.

Lemma rstrip_cons x s :
  Py.rstrip (String x s) =
    match Py.rstrip s with
    | EmptyString =>
        if Py.isspace x then EmptyString else String x EmptyString
    | r => String x r
    end.
Proof. done. Qed.

Lemma rstrip_idemp s : Py.rstrip (Py.rstrip s) = Py.rstrip s.
Proof.
  induction s as [|x s IH]; [done |]. rewrite rstrip_cons.
  destruct (Py.rstrip s) as [|y r] eqn:E.
  - destruct (Py.isspace x) eqn:Ex; [done |].
    rewrite rstrip_cons. simpl. by rewrite Ex.
  - rewrite (rstrip_cons x). by rewrite IH.
Qed.

Lemma lstrip_rstrip s : Py.lstrip (Py.rstrip s) = Py.rstrip (Py.lstrip s).
Proof.
  induction s as [|x s IH]; [done |].
  rewrite rstrip_cons. cbn [Py.lstrip].
  destruct (Py.isspace x) eqn:Ex.
  - rewrite <- IH. destruct (Py.rstrip s) as [|y r]; [done |].
    cbn [Py.lstrip]. by rewrite Ex.
  - rewrite rstrip_cons.
    destruct (Py.rstrip s) as [|y r]; cbn [Py.lstrip]; by rewrite Ex.
Qed.

Lemma strip_idemp s : Py.strip (Py.strip s) = Py.strip s.
Proof.
  unfold Py.strip.
  by rewrite lstrip_rstrip, lstrip_idemp, rstrip_idemp.
Qed.

Lemma before_char_lstrip c s :
  Py.isspace c = false →
  before (String c EmptyString) (Py.lstrip s)
  = Py.lstrip (before (String c EmptyString) s).
Proof.
  intros Hc. induction s as [|x s IH]; [done |].
  rewrite before_char_cons. simpl.
  destruct (Py.isspace x) eqn:Ex.
  - destruct (decide (c = x)) as [->|]; [congruence |].
    simpl. by rewrite Ex.
  - rewrite before_char_cons.
    destruct (decide (c = x)); [done |]. simpl. by rewrite Ex.
Qed.

Lemma rstrip_before_char_rstrip c s :
  Py.isspace c = false →
  Py.rstrip (before (String c EmptyString) (Py.rstrip s))
  = Py.rstrip (before (String c EmptyString) s).
Proof.
  intros Hc. induction s as [|x s IH]; [done |].
  rewrite (before_char_cons c x s), (rstrip_cons x s).
  destruct (decide (c = x)) as [<-|Hne].
  - rewrite Hc.
    destruct (Py.rstrip s); rewrite before_char_cons; by rewrite decide_True.
  - rewrite (rstrip_cons x), <- IH.
    destruct (Py.rstrip s) as [|y r].
    + rewrite before_char_nil. cbn [Py.rstrip].
      destruct (Py.isspace x) eqn:Ex; [done |].
      rewrite before_char_cons, decide_False by done.
      rewrite before_char_nil, rstrip_cons. cbn [Py.rstrip]. by rewrite Ex.
    + rewrite (before_char_cons c x), decide_False by done.
      by rewrite (rstrip_cons x).
Qed.

(** Trimming before cutting at a separator that is not white space
    changes nothing once the piece is trimmed again. *)
Lemma strip_before_char_strip c s :
  Py.isspace c = false →
  Py.strip (before (String c EmptyString) (Py.strip s))
  = Py.strip (before (String c EmptyString) s).
Proof.
  intros Hc. unfold Py.strip.
  rewrite <- (before_char_lstrip c (Py.rstrip _)) by done.
  rewrite lstrip_rstrip, lstrip_idemp.
  rewrite rstrip_before_char_rstrip by done.
  by rewrite before_char_lstrip.
Qed.

End StripFacts.

(** * The progress interpreter *)

Section Interpreter.

Local Arguments String.append : simpl nomatch.

Lemma NL_nonempty : Py.NL ≠ EmptyString.
Proof. done. Qed.

Lemma first_line_no_break msg :
  Py.isin Py.NL msg = false → first_line msg = msg.
Proof. intros H%isin_false. unfold first_line, before. by rewrite H. Qed.

(** The handler on a message that carries the marker: the index comes
    from the first line, the panels from the rest of the message. *)
Lemma emit_marked msg :
  Py.isin "RLM iteration" msg = true →
  emit msg =
    if Py.isin "iteration" (first_line msg) then
      Returned
        (IterationStart
           (Py.strip (before "/"
              (Py.strip (before "iteration"
                 (after "iteration" (first_line msg))))))
         :: match body_of msg with
            | Some content =>
                if Py.isin "Reasoning:" content
                then body_events (segments content).1 (segments content).2
                else []
            | None => []
            end)
    else Raised IndexError.
Proof.
  intros Hm. unfold emit. rewrite Hm. cbn [negb].
  rewrite split_once by done. unfold body_of.
  assert (∀ l, Py.getitem (first_line msg :: l) 0 = Returned (first_line msg))
    as Hhead by done.
  assert (∀ header (k : string → outcome (list ProgressEvent)),
    (after ←! Py.getitem (Py.split header "iteration" None) 1;
     first ←! Py.getitem (Py.split (Py.strip after) "/" None) 0;
     k first)
    = if Py.isin "iteration" header
      then k (before "/" (Py.strip (before "iteration"
                                      (after "iteration" header))))
      else Raised IndexError) as Hidx.
  { intros header k. unfold Py.getitem.
    rewrite split_second by done.
    destruct (Py.isin "iteration" header); [| done].
    cbn [bind]. by rewrite split_first. }
  destruct (Py.isin Py.NL msg) eqn:Hnl.
  - rewrite Hhead. cbn [bind]. rewrite Hidx.
    destruct (Py.isin "iteration" (first_line msg)); [| done].
    destruct (Py.isin "Reasoning:" (after Py.NL msg)); [| done].
    cbn [negb]. by destruct (segments (after Py.NL msg)).
  - rewrite <- (first_line_no_break msg Hnl) at 1.
    rewrite Hhead. cbn [bind]. rewrite Hidx.
    by destruct (Py.isin "iteration" (first_line msg)).
Qed.

Lemma emit_unmarked msg :
  Py.isin "RLM iteration" msg = false → emit msg = Returned [].
Proof. intros H. unfold emit. by rewrite H. Qed.

(** The only exception of the handler: the marker is there and the first
    line has no "iteration". *)
Lemma emit_raises msg :
  emit msg = Raised IndexError ↔
    Py.isin "RLM iteration" msg = true ∧
    Py.isin "iteration" (first_line msg) = false.
Proof.
  destruct (Py.isin "RLM iteration" msg) eqn:Hm.
  - rewrite emit_marked by done.
    destruct (Py.isin "iteration" (first_line msg)); split;
      (done || by intros []).
  - rewrite emit_unmarked by done. split; (done || by intros []).
Qed.

End Interpreter.

Section Index.

Local Arguments String.append : simpl nomatch.

Implicit Types (s a b tok : string) (c x : ascii).

Lemma isin_cons_false sub x s :
  Py.isin sub (String x s) = false ↔
    Py.startswith (String x s) sub = false ∧ Py.isin sub s = false.
Proof.
  rewrite !isin_false. cbn [Py.index_of].
  destruct (Py.startswith (String x s) sub); [by split; [| intros []] |].
  destruct (Py.index_of sub s); split; (done || by intros []).
Qed.

Lemma before_cons tok x s :
  before tok (String x s) =
    if Py.startswith (String x s) tok then EmptyString
    else String x (before tok s).
Proof.
  unfold before. cbn [Py.index_of].
  destruct (Py.startswith (String x s) tok); [done |].
  by destruct (Py.index_of tok s).
Qed.

(** A token without the character [c] cannot start before [c] and run
    over it. *)
Lemma startswith_skip a c b tok :
  Py.startswith (a ++ String c b) tok = true →
  Py.isin (String c EmptyString) tok = false →
  Py.startswith a tok = true.
Proof.
  revert a; induction tok as [|t tok IH]; intros a H Hc; [done |].
  apply isin_cons_false in Hc as [Hc1 Hc2].
  rewrite startswith_char in Hc1. apply bool_decide_eq_false in Hc1.
  destruct a as [|x a]; simpl in H |- *.
  - destruct (decide (t = c)); [congruence | done].
  - destruct (decide (t = x)); [| done]. by apply IH.
Qed.

Lemma before_token_keeps tok idx c tail :
  tok ≠ EmptyString →
  Py.isin tok idx = false →
  Py.isin (String c EmptyString) tok = false →
  ∃ tail', before tok (idx ++ String c tail) = idx ++ String c tail'.
Proof.
  intros Htok Hidx Hc. induction idx as [|x idx IH]; simpl.
  - rewrite before_cons.
    destruct (Py.startswith (String c tail) tok) eqn:E; [| by eauto].
    apply (startswith_skip EmptyString) in E; [| done].
    by destruct tok.
  - apply isin_cons_false in Hidx as [H1 H2].
    rewrite before_cons.
    destruct (Py.startswith (String x (idx ++ String c tail)) tok) eqn:E.
    + apply (startswith_skip (String x idx)) in E; [congruence | done].
    + destruct (IH H2) as [tail' ->]. by eauto.
Qed.

End Index.

(** C1, as stated, fails: the marker is looked for in the whole message but
    the index is read from the first line, and [header.split("iteration")[1]]
    raises [IndexError] when that line has no "iteration". *)
Lemma emit_raises_on_late_marker :
  Py.isin "RLM iteration" late_marker = true ∧
  emit late_marker = Raised IndexError.
Proof. split; vm_compute; reflexivity. Qed.

(** C1 (amended): a line without the marker, or whose first line contains
    the token "iteration", is processed without an exception: the handler
    returns with the events it parsed. *)
Theorem emit_returns (msg : string) :
  Py.isin "RLM iteration" msg = false ∨
  Py.isin "iteration" (first_line msg) = true →
  ∃ events, emit msg = Returned events.
Proof.
  intros [H | H].
  - rewrite emit_unmarked by done. by eauto.
  - destruct (Py.isin "RLM iteration" msg) eqn:Hm.
    + rewrite emit_marked, H by done. by eauto.
    + rewrite emit_unmarked by done. by eauto.
Qed.

Lemma emit_returns_witness :
  ∃ events, emit ("RLM iteration 7/20" ++ Py.NL ++ "no body") = Returned events.
Proof. apply emit_returns. right. vm_compute. reflexivity. Defined.

(** C9: a line without the marker produces no event, and the example line
    produces the step 3, the reasoning "because X" and the code "print(1)". *)
Theorem emit_examples :
  (∀ msg, Py.isin "RLM iteration" msg = false → emit msg = Returned []) ∧
  emit example_line =
    Returned [IterationStart "3"; ReasoningBlock "because X";
              CodeBlock "print(1)"].
Proof. split; [apply emit_unmarked | vm_compute; reflexivity]. Qed.

Lemma emit_examples_witness :
  emit "Loading transcripts" = Returned [].
Proof. apply (proj1 emit_examples). vm_compute. reflexivity. Defined.

(** C10, as stated, fails: [split("iteration")[1]] ends at the second
    "iteration" token, so the text up to the next "/" is not all taken. *)
Lemma index_cut_at_second_token :
  let msg := "RLM iteration iteration 3/20" in
  Py.isin "RLM iteration" msg = true ∧
  first_line msg = "RLM " ++ "iteration" ++ " iteration 3" ++ "/" ++ "20" ∧
  Py.find (first_line msg) "iteration" = Py.len "RLM " ∧
  Py.isin "/" " iteration 3" = false ∧
  emit msg = Returned [IterationStart EmptyString] ∧
  ¬ ∃ panels,
      emit msg = Returned (IterationStart (Py.strip " iteration 3") :: panels).
Proof.
  repeat split; try (vm_compute; reflexivity).
  intros [panels H]. vm_compute in H. discriminate.
Qed.

(** C10 (amended): on a line with the marker, the step index is the raw
    text between the first "iteration" token of the first line and the next
    "/", trimmed of white space, whenever no other "iteration" token lies
    between them; the text is not checked to be a number. *)
Theorem iteration_index_verbatim (msg pre idx tail : string) :
  Py.isin "RLM iteration" msg = true →
  first_line msg = pre ++ "iteration" ++ idx ++ "/" ++ tail →
  Py.find (first_line msg) "iteration" = Py.len pre →
  Py.isin "iteration" idx = false →
  Py.isin "/" idx = false →
  ∃ panels, emit msg = Returned (IterationStart (Py.strip idx) :: panels).
Proof.
  intros Hm Hline Hfirst Hidx Hslash.
  apply find_index_of in Hfirst.
  rewrite emit_marked by done.
  assert (Py.isin "iteration" (first_line msg) = true) as ->
    by (apply isin_true; eauto).
  assert (after "iteration" (first_line msg) = idx ++ String "/" tail) as ->.
  { unfold after. rewrite Hfirst, Hline. by rewrite str_drop_app_plus. }
  destruct (before_token_keeps "iteration" idx "/" tail) as [tail' ->];
    [done.. |].
  rewrite strip_before_char_strip by done.
  rewrite before_char_app by done. by eauto.
Qed.

Lemma iteration_index_verbatim_witness :
  ∃ panels, emit "RLM iteration abc/20"
            = Returned (IterationStart "abc" :: panels).
Proof.
  apply (iteration_index_verbatim "RLM iteration abc/20" "RLM " " abc" "20");
    vm_compute; reflexivity.
Defined.

(** ** Slices *)

Section SliceFacts.

Local Arguments String.append : simpl nomatch.

Implicit Types (s a b : string) (n : nat).

Lemma str_take_min n s : Py.take (Nat.min n (String.length s)) s = Py.take n s.
Proof.
  destruct (Nat.le_gt_cases n (String.length s)).
  - by rewrite Nat.min_l.
  - rewrite Nat.min_r, !str_take_all by lia. done.
Qed.

(** [s[:n]] for [n ≥ 0]. *)
Lemma slice_to s (n : Z) :
  0 ≤ n → Py.slice s None (Some n) = Py.take (Z.to_nat n) s.
Proof.
  intros Hn. unfold Py.slice, Py.bound, Py.len. simpl.
  destruct (n <? 0) eqn:E; [lia |]. rewrite Z.sub_0_r.
  rewrite Z2Nat.inj_min, Nat2Z.id. apply str_take_min.
Qed.

(** [s[n:]] for [0 ≤ n]. *)
Lemma slice_from s (n : Z) :
  0 ≤ n → Py.slice s (Some n) None = Py.drop (Z.to_nat n) s.
Proof.
  intros Hn. unfold Py.slice, Py.bound, Py.len. simpl.
  destruct (n <? 0) eqn:E; [lia |].
  destruct (Z.le_gt_cases n (Z.of_nat (String.length s))).
  - rewrite Z.min_l by done. apply str_take_all. rewrite str_length_drop. lia.
  - rewrite Z.min_r, Nat2Z.id by lia.
    rewrite !str_drop_all by lia. by destruct (Z.to_nat _).
Qed.

(** [s[lo:hi]] for [0 ≤ lo ≤ hi]. *)
Lemma slice_between s (lo hi : Z) :
  0 ≤ lo ≤ hi →
  Py.slice s (Some lo) (Some hi)
  = Py.take (Z.to_nat (hi - lo)) (Py.drop (Z.to_nat lo) s).
Proof.
  intros Hn. unfold Py.slice, Py.bound, Py.len. simpl.
  destruct (lo <? 0) eqn:E1; [lia |]. destruct (hi <? 0) eqn:E2; [lia |].
  set (len := Z.of_nat (String.length s)).
  destruct (Z.le_gt_cases hi len).
  - by rewrite !Z.min_l by lia.
  - rewrite (Z.min_r hi) by lia.
    destruct (Z.le_gt_cases lo len).
    + rewrite Z.min_l by lia.
      rewrite !str_take_all; [done | rewrite str_length_drop; lia..].
    + rewrite Z.min_r by lia. unfold len. rewrite Nat2Z.id.
      rewrite !str_drop_all by lia. by destruct (Z.to_nat _), (Z.to_nat _).
Qed.

(** [s[:-n]] drops the last [n] characters. *)
Lemma slice_drop_last a b :
  b ≠ EmptyString →
  Py.slice (a ++ b) None (Some (- Z.of_nat (String.length b))) = a.
Proof.
  intros Hb. unfold Py.slice, Py.bound, Py.len. simpl.
  assert (0 < String.length b)%nat by (destruct b; simpl; done || lia).
  destruct (_ <? 0) eqn:E; [| lia].
  rewrite str_length_app, Z.max_r by lia.
  replace (Z.to_nat _) with (String.length a) by lia.
  apply str_take_app_length.
Qed.

End SliceFacts.

(** ** Truncation for display *)



(** ** The position test on the "Code:" marker *)

(** C5: with "Code:" at offset 0 of the body, [find] returns 0 and the test
    [code_start > 0] takes the marker for absent: the reasoning runs to the
    end of the body and no code panel is printed, although the body has a
    "Code:" marker followed by "print(1)". *)
Theorem code_marker_at_offset_0 :
  Py.isin "Code:" code_first_body = true ∧
  Py.find code_first_body "Code:" = 0 ∧
  segments code_first_body = ("r", EmptyString) ∧
  emit ("RLM iteration 1/2" ++ Py.NL ++ code_first_body)
  = Returned [IterationStart "1"; ReasoningBlock "r"].
Proof. vm_compute. done. Qed.

(** * The history formatter *)

Section Formatter.

Local Arguments String.append : simpl nomatch.

Implicit Types (history : list (string * string)) (lines : list string).

Lemma join_cons sep l l' lines :
  join sep (l :: l' :: lines) = l ++ sep ++ join sep (l' :: lines).
Proof. done. Qed.

Lemma foldl_lines history n lines :
  foldl (λ lines '(i, (q, a)),
           (lines ++ [question_line i q; answer_line i a])%list)
        lines (enumerate n history)
  = (lines ++ flat_map (λ '(i, (q, a)),
                          [question_line i q; answer_line i a])
                       (enumerate n history))%list.
Proof.
  revert n lines; induction history as [|[q a] history IH];
    intros n lines; simpl.
  - by rewrite List.app_nil_r.
  - rewrite IH. by rewrite <- List.app_assoc.
Qed.

Lemma join_pair_lines history n l :
  join Py.NL (l :: flat_map (λ '(i, (q, a)),
                               [question_line i q; answer_line i a])
                            (enumerate n history))
  = join Py.NL (l :: pair_lines n history).
Proof.
  unfold pair_lines.
  revert n l; induction history as [|[q a] history IH]; intros n l;
    [done |].
  cbn [enumerate flat_map List.app].
  rewrite !join_cons, IH. unfold question_line.
  by rewrite !str_app_assoc.
Qed.

Lemma format_history_lines history :
  history ≠ [] →
  format_history history
  = join Py.NL ("Previous conversation:" :: pair_lines 1 history).
Proof.
  intros H. destruct history as [|p history]; [done |].
  unfold format_history. rewrite foldl_lines.
  apply join_pair_lines.
Qed.

End Formatter.

(** C7: the empty history gives the sentinel; any other history gives the
    header line and then, for each pair in order and numbered from 1, a
    question line "Qn: ..." and an answer line "An: ..." (each question
    line comes after an empty line).  The example history gives the four
    lines of the specification. *)
Theorem format_history_shape :
  format_history [] = "No previous conversation." ∧
  (∀ history, history ≠ [] →
     format_history history
     = join Py.NL ("Previous conversation:" :: pair_lines 1 history)) ∧
  format_history example_history
  = join Py.NL ["Previous conversation:"; EmptyString;
                "Q1: Q1?"; "A1: A1."; EmptyString; "Q2: Q2?"; "A2: A2."].
Proof.
  split; [done |]. split; [apply format_history_lines |].
  vm_compute. reflexivity.
Qed.

Lemma format_history_shape_witness :
  format_history [("What is focus?", "Attention.")]
  = join Py.NL ["Previous conversation:"; EmptyString;
                "Q1: What is focus?"; "A1: Attention."].
Proof.
  rewrite (proj1 (proj2 format_history_shape)) by discriminate.
  vm_compute. reflexivity.
Defined.

Section RoundTrip.

Local Arguments String.append : simpl nomatch.

Implicit Types (s a b : string) (c x : ascii)
  (history : list (string * string)) (lines : list string).

Lemma index_of_char_app c a b :
  Py.isin (String c EmptyString) a = false →
  Py.index_of (String c EmptyString) (a ++ String c b)
  = Some (String.length a).
Proof.
  induction a as [|x a IH]; intros H; simpl.
  - by rewrite decide_True.
  - apply isin_cons_false in H as [H1 H2].
    rewrite startswith_char in H1. apply bool_decide_eq_false in H1.
    rewrite decide_False by done. by rewrite IH.
Qed.

Lemma isin_char_app c a b :
  Py.isin (String c EmptyString) a = false →
  Py.isin (String c EmptyString) b = false →
  Py.isin (String c EmptyString) (a ++ b) = false.
Proof.
  intros Ha Hb. induction a as [|x a IH]; [done |]. simpl.
  apply isin_cons_false in Ha as [H1 H2].
  apply isin_cons_false. split; [| by apply IH].
  by rewrite startswith_char in *.
Qed.








Lemma join_head sep l lines : ∃ rest, join sep (l :: lines) = l ++ rest.
Proof.
  destruct lines; simpl; [exists EmptyString; by rewrite str_app_nil_r |].
  by eauto.
Qed.

End RoundTrip.




(** * The corpus loader *)

Section Titles.

Local Arguments String.append : simpl nomatch.

Implicit Types (s a b st rest core : string) (c x : ascii).

Lemma replace_cons_char c d x s :
  Py.replace (String x s) (String c EmptyString) (String d EmptyString)
  = String (if decide (x = c) then d else x)
           (Py.replace s (String c EmptyString) (String d EmptyString)).
Proof.
  rewrite (replace_unfold (String x s)) by done.
  cbn [Py.index_of]. rewrite startswith_char.
  destruct (decide (x = c)) as [->|Hne].
  - by rewrite bool_decide_eq_true_2.
  - rewrite bool_decide_eq_false_2 by done.
    rewrite (replace_unfold s) by done.
    by destruct (Py.index_of _ s).
Qed.

Lemma replace_underscores s :
  Py.replace s "_" " " = underscores_to_spaces s.
Proof.
  induction s as [|x s IH]; [done |].
  rewrite replace_cons_char, IH. done.
Qed.

Lemma replace_absent s old new :
  old ≠ EmptyString → Py.isin old s = false → Py.replace s old new = s.
Proof.
  intros Hold H%isin_false. rewrite replace_unfold by done. by rewrite H.
Qed.

(** The token ".vtt" cannot start inside [core] and end inside a ".vtt"
    that follows it. *)
Lemma index_of_vtt_suffix core :
  Py.isin ".vtt" core = false →
  Py.index_of ".vtt" (core ++ ".vtt") = Some (String.length core).
Proof.
  induction core as [|x core IH]; intros H; [done |].
  apply isin_cons_false in H as [H1 H2].
  change (String x core ++ ".vtt") with (String x (core ++ ".vtt")).
  cbn [Py.index_of]. rewrite IH by done.
  assert (Py.startswith (String x (core ++ ".vtt")) ".vtt" = false) as ->;
    [| done].
  destruct core as [|c1 [|c2 [|c3 core]]]; simpl in *;
    repeat (case_decide; try done); congruence.
Qed.

Lemma replace_vtt_suffix core :
  Py.isin ".vtt" core = false →
  Py.replace (core ++ ".vtt") ".vtt" EmptyString = core.
Proof.
  intros H. rewrite replace_unfold by done.
  rewrite index_of_vtt_suffix by done.
  rewrite str_take_app_length.
  replace (String.length core + String.length ".vtt")%nat
    with (String.length (core ++ ".vtt")) by (by rewrite str_length_app).
  rewrite str_drop_all by done. simpl. by rewrite str_app_nil_r.
Qed.

Lemma app_char c s : String c EmptyString ++ s = String c s.
Proof. done. Qed.

Lemma split_three a b rest :
  Py.isin "_" a = false → Py.isin "_" b = false →
  Py.split (a ++ "_" ++ b ++ "_" ++ rest) "_" (Some 2%nat) = [a; b; rest].
Proof.
  intros Ha Hb. rewrite !app_char, split_unfold by done.
  rewrite index_of_char_app by done.
  rewrite str_take_app_length, str_drop_app_plus. simpl Py.drop. simpl fmap.
  f_equal. rewrite split_unfold by done.
  rewrite index_of_char_app by done.
  rewrite str_take_app_length, str_drop_app_plus. simpl Py.drop. simpl fmap.
  done.
Qed.

Lemma split_two a b :
  Py.isin "_" a = false → Py.isin "_" b = false →
  Py.split (a ++ "_" ++ b) "_" (Some 2%nat) = [a; b].
Proof.
  intros Ha Hb%isin_false. rewrite !app_char, split_unfold by done.
  rewrite index_of_char_app by done.
  rewrite str_take_app_length, str_drop_app_plus. simpl Py.drop. simpl fmap.
  f_equal. rewrite split_unfold by done. by rewrite Hb.
Qed.

Lemma split_one st :
  Py.isin "_" st = false → Py.split st "_" (Some 2%nat) = [st].
Proof.
  intros H%isin_false. rewrite split_unfold by done. by rewrite H.
Qed.

Lemma rindex_char_app c a b :
  rindex_char c (a ++ b) =
    match rindex_char c b with
    | Some i => Some (String.length a + i)%nat
    | None => rindex_char c a
    end.
Proof.
  induction a as [|x a IH]; simpl.
  - by destruct (rindex_char c b).
  - rewrite IH. by destruct (rindex_char c b).
Qed.

(** The stem of a name "st.txt" is [st]. *)
Lemma stem_txt st : st ≠ EmptyString → stem (st ++ ".txt") = st.
Proof.
  intros H. unfold stem. rewrite rindex_char_app. simpl rindex_char.
  cbv iota. rewrite str_length_app, Nat.add_0_r.
  rewrite bool_decide_eq_true_2.
  - apply str_take_app_length.
  - destruct st; simpl; [done | lia].
Qed.

Lemma replace_cons tok new x s :
  tok ≠ EmptyString →
  Py.replace (String x s) tok new =
    if Py.startswith (String x s) tok
    then new ++ Py.replace (Py.drop (String.length tok) (String x s)) tok new
    else String x (Py.replace s tok new).
Proof.
  intros Htok. rewrite (replace_unfold (String x s)) by done.
  cbn [Py.index_of].
  destruct (Py.startswith (String x s) tok); [done |].
  rewrite (replace_unfold s) by done.
  by destruct (Py.index_of tok s).
Qed.

Lemma delete_go_skip tok k s :
  delete_go tok k s = delete_go tok 0 (Py.drop k s).
Proof.
  revert k; induction s as [|x s IH]; intros [|k]; try done.
  simpl. apply IH.
Qed.

(** [replace] by the empty string deletes the occurrences met from left to
    right. *)
Lemma replace_delete tok s :
  tok ≠ EmptyString → Py.replace s tok EmptyString = delete_all tok s.
Proof.
  intros Htok. unfold delete_all.
  remember (S (String.length s)) as bound eqn:Hb.
  assert (String.length s < bound)%nat as Hlt by lia. clear Hb.
  revert s Hlt; induction bound as [|bound IH]; intros s Hlt; [lia |].
  destruct s as [|x s]; [by destruct tok |].
  rewrite replace_cons by done. cbn [delete_go].
  destruct (Py.startswith (String x s) tok).
  - rewrite delete_go_skip, <- IH.
    + destruct tok as [|t tok]; [done |]. simpl. by rewrite Nat.sub_0_r.
    + rewrite str_length_drop. simpl in Hlt. lia.
  - rewrite IH; [done |]. simpl in Hlt. lia.
Qed.

Lemma underscores_to_spaces_app a b :
  underscores_to_spaces (a ++ b)
  = underscores_to_spaces a ++ underscores_to_spaces b.
Proof. induction a as [|x a IH]; [done |]. simpl. by rewrite IH. Qed.

Lemma startswith_underscores_to_spaces s :
  Py.startswith (underscores_to_spaces s) ".vtt" = Py.startswith s ".vtt".
Proof.
  destruct s as [|c1 [|c2 [|c3 [|c4 s]]]]; simpl; try done;
    repeat (case_decide; subst; try done; try congruence).
Qed.

Lemma isin_vtt_underscores_to_spaces s :
  Py.isin ".vtt" (underscores_to_spaces s) = Py.isin ".vtt" s.
Proof.
  unfold Py.isin. f_equal.
  assert (Py.index_of ".vtt" (underscores_to_spaces s)
          = Py.index_of ".vtt" s) as ->; [| done].
  induction s as [|x s IH]; [done |].
  change (underscores_to_spaces (String x s))
    with (String (if decide (x = "_"%char) then " "%char else x)
                 (underscores_to_spaces s)).
  cbn [Py.index_of]. rewrite IH.
  change (String (if decide (x = "_"%char) then " "%char else x)
                 (underscores_to_spaces s))
    with (underscores_to_spaces (String x s)).
  by rewrite startswith_underscores_to_spaces.
Qed.

Lemma endswith_app a b : Py.endswith (a ++ b) b = true.
Proof.
  unfold Py.endswith. rewrite str_length_app.
  rewrite bool_decide_eq_true_2 by lia.
  replace (_ + _ - _)%nat with (String.length a) by lia.
  by rewrite str_drop_app_length, bool_decide_eq_true_2.
Qed.

Lemma endswith_isin s p : Py.endswith s p = true → Py.isin p s = true.
Proof.
  unfold Py.endswith. intros [_ H%bool_decide_eq_true]%andb_true_iff.
  destruct (Py.isin p s) eqn:E; [done |].
  apply isin_false, index_of_None
    with (j := (String.length s - String.length p)%nat) in E.
  rewrite H in E. rewrite <- (str_app_nil_r p) in E at 1.
  by rewrite startswith_app in E.
Qed.

Lemma strip_vtt_suffix_present core :
  strip_vtt_suffix (core ++ ".vtt") = core.
Proof.
  unfold strip_vtt_suffix. rewrite endswith_app.
  change (-4) with (- Z.of_nat (String.length ".vtt")).
  by rewrite slice_drop_last.
Qed.

Lemma strip_vtt_suffix_absent s :
  Py.isin ".vtt" s = false → strip_vtt_suffix s = s.
Proof.
  intros H. unfold strip_vtt_suffix.
  destruct (Py.endswith s ".vtt") eqn:E; [| done].
  apply endswith_isin in E. congruence.
Qed.

(** The two titles of a name with a stem of three parts. *)
Lemma titles_three_parts a b rest :
  Py.isin "_" a = false → Py.isin "_" b = false →
  title_of (a ++ "_" ++ b ++ "_" ++ rest ++ ".txt")
  = Py.replace (underscores_to_spaces rest) ".vtt" EmptyString ∧
  title_as_worded (a ++ "_" ++ b ++ "_" ++ rest ++ ".txt")
  = strip_vtt_suffix (underscores_to_spaces rest).
Proof.
  intros Ha Hb. unfold title_of, title_as_worded.
  rewrite <- !str_app_assoc, stem_txt by (by destruct a).
  unfold title_of_stem. rewrite !str_app_assoc, split_three by done.
  by rewrite replace_underscores.
Qed.

End Titles.

(** C4, as stated, fails: [replace(".vtt", "")] deletes the text wherever
    it stands, not only at the end of the third part; on this name the code
    gives "my notes" where stripping a suffix gives "my.vtt notes". *)
Lemma title_deletes_inner_vtt :
  title_of inner_vtt_name = "my notes" ∧
  title_as_worded inner_vtt_name = "my.vtt notes".
Proof. split; vm_compute; reflexivity. Qed.

(** C4 (amended): the title of a file "stem.txt".  A stem [a_b_rest] with
    no underscore in [a] and [b] (three parts after at most two cuts) gives
    [rest] with its underscores turned into spaces and every occurrence of
    ".vtt", met from left to right, deleted.  When ".vtt" stands nowhere in
    the third part, or only as its suffix, this is the third part with the
    suffix stripped, as the specification words it.  A stem with one
    underscore or none is the title.  The two file names of the
    specification give "How to Focus" and "notes". *)
Theorem title_rule :
  (∀ a b rest, Py.isin "_" a = false → Py.isin "_" b = false →
     title_of (a ++ "_" ++ b ++ "_" ++ rest ++ ".txt")
     = delete_all ".vtt" (underscores_to_spaces rest)) ∧
  (∀ a b core, Py.isin "_" a = false → Py.isin "_" b = false →
     Py.isin ".vtt" core = false →
     title_of (a ++ "_" ++ b ++ "_" ++ (core ++ ".vtt") ++ ".txt")
     = underscores_to_spaces core ∧
     title_as_worded (a ++ "_" ++ b ++ "_" ++ (core ++ ".vtt") ++ ".txt")
     = underscores_to_spaces core ∧
     title_of (a ++ "_" ++ b ++ "_" ++ core ++ ".txt")
     = underscores_to_spaces core ∧
     title_as_worded (a ++ "_" ++ b ++ "_" ++ core ++ ".txt")
     = underscores_to_spaces core) ∧
  (∀ a b, Py.isin "_" a = false → Py.isin "_" b = false →
     title_of (a ++ "_" ++ b ++ ".txt") = a ++ "_" ++ b) ∧
  (∀ st, st ≠ EmptyString → Py.isin "_" st = false →
     title_of (st ++ ".txt") = st) ∧
  title_of "ep_01_How_to_Focus.txt" = "How to Focus" ∧
  title_of "notes.txt" = "notes".
Proof.
  split; [| split; [| repeat split]].
  - intros a b rest Ha Hb.
    rewrite (proj1 (titles_three_parts a b rest Ha Hb)).
    by apply replace_delete.
  - intros a b core Ha Hb Hcore.
    destruct (titles_three_parts a b (core ++ ".vtt") Ha Hb) as [-> ->].
    destruct (titles_three_parts a b core Ha Hb) as [-> ->].
    rewrite underscores_to_spaces_app.
    change (underscores_to_spaces ".vtt") with ".vtt".
    rewrite <- isin_vtt_underscores_to_spaces in Hcore.
    rewrite replace_vtt_suffix, strip_vtt_suffix_present by done.
    by rewrite replace_absent, strip_vtt_suffix_absent.
  - intros a b Ha Hb. unfold title_of.
    rewrite <- !str_app_assoc, stem_txt by (by destruct a).
    unfold title_of_stem. by rewrite !str_app_assoc, split_two.
  - intros st Hne H. unfold title_of. rewrite stem_txt by done.
    unfold title_of_stem. by rewrite split_one.
Qed.

Lemma title_rule_witness :
  title_of "2021_03_Sleep_and_Learning.vtt.txt" = "Sleep and Learning" ∧
  title_of inner_vtt_name = delete_all ".vtt" "my.vtt notes".
Proof.
  destruct title_rule as (Hall & Hvtt & _). split.
  - exact (proj1 (Hvtt "2021" "03" "Sleep_and_Learning"
                    eq_refl eq_refl eq_refl)).
  - exact (Hall "ep" "01" "my.vtt_notes" eq_refl eq_refl).
Defined.

Section Loader.

Context {A : Type} (key value : A → string).

Implicit Types (l : list A) (m : gmap string string).

Local Abbreviation fill := (fill key value).

Lemma lookup_fill_other l m (t : string) :
  t ∉ key <$> l → fill m l !! t = m !! t.
Proof.
  revert m; induction l as [|x l IH]; intros m Ht; [done |].
  rewrite fmap_cons, not_elem_of_cons in Ht. destruct Ht as [Hne Ht].
  simpl. rewrite IH by done. by rewrite lookup_insert_ne.
Qed.

Lemma lookup_fill l m x :
  NoDup (key <$> l) → x ∈ l → fill m l !! key x = Some (value x).
Proof.
  revert m; induction l as [|x' l IH]; intros m Hnd Hx.
  - by apply elem_of_nil in Hx.
  - rewrite fmap_cons in Hnd. apply NoDup_cons in Hnd as [Hnotin Hnd].
    apply elem_of_cons in Hx as [-> | Hx]; simpl.
    + rewrite lookup_fill_other by done. by rewrite lookup_insert_eq.
    + by apply IH.
Qed.

Lemma size_fill l m :
  NoDup (key <$> l) → (∀ x, x ∈ l → m !! key x = None) →
  size (fill m l) = (size m + length l)%nat.
Proof.
  revert m; induction l as [|x l IH]; intros m Hnd Hm; simpl; [lia |].
  rewrite fmap_cons in Hnd. apply NoDup_cons in Hnd as [Hnotin Hnd].
  rewrite IH; [| done |].
  - rewrite map_size_insert_None; [lia |]. apply Hm. by left.
  - intros x' Hx'. rewrite lookup_insert_ne.
    + apply Hm. by right.
    + intros E. apply Hnotin. rewrite E. by apply list_elem_of_fmap_2.
Qed.

Lemma dom_fill l m :
  dom (fill m l) = dom m ∪ list_to_set (key <$> l).
Proof.
  revert m; induction l as [|x l IH]; intros m; simpl.
  - by rewrite (right_id_L ∅ (∪)).
  - rewrite IH, dom_insert_L.
    rewrite (comm_L (∪) {[key x]} (dom m)). by rewrite <- (assoc_L (∪)).
Qed.

End Loader.

Lemma load_transcripts_fill dir :
  load_transcripts dir
  = fill (λ f, title_of (file_name f)) file_text ∅ (glob_txt dir).
Proof. done. Qed.

Lemma load_transcripts_dom dir :
  dom (load_transcripts dir) = list_to_set (titles dir).
Proof.
  rewrite load_transcripts_fill, dom_fill, dom_empty_L.
  by rewrite (left_id_L ∅ (∪)).
Qed.

Section EmptyTitle.

Local Arguments String.append : simpl nomatch.

Implicit Types (s a b st third : string) (c x : ascii) (n i : nat).

Lemma append_empty a b :
  a ++ b = EmptyString → a = EmptyString ∧ b = EmptyString.
Proof. by destruct a. Qed.

Lemma vtt_repeat_char_free c n :
  Py.isin (String c EmptyString) ".vtt" = false →
  Py.isin (String c EmptyString) (vtt_repeat n) = false.
Proof.
  intros H. induction n as [|n IH]; [done |]. by apply isin_char_app.
Qed.

Lemma underscores_to_spaces_id s :
  Py.isin "_" s = false → underscores_to_spaces s = s.
Proof.
  induction s as [|x s IH]; [done |]. intros [Hx H]%isin_cons_false.
  rewrite startswith_char in Hx. apply bool_decide_eq_false in Hx.
  simpl. rewrite IH by done.
  by rewrite decide_False by congruence.
Qed.

Lemma underscores_to_spaces_no_space s :
  Py.isin " " (underscores_to_spaces s) = false →
  underscores_to_spaces s = s.
Proof.
  induction s as [|x s IH]; [done |]. simpl.
  intros [Hx H]%isin_cons_false.
  rewrite startswith_char in Hx. apply bool_decide_eq_false in Hx.
  rewrite IH by done.
  by destruct (decide (x = "_"%char)).
Qed.

(** Deleting ".vtt" leaves nothing exactly of the repetitions of ".vtt". *)
Lemma replace_vtt_empty s :
  Py.replace s ".vtt" EmptyString = EmptyString ↔ ∃ n, s = vtt_repeat n.
Proof.
  split.
  - remember (S (String.length s)) as bound eqn:Hb.
    assert (String.length s < bound)%nat as Hlt by lia. clear Hb.
    revert s Hlt; induction bound as [|bound IH]; intros s Hlt; [lia |].
    rewrite replace_unfold by done.
    destruct (Py.index_of ".vtt" s) as [i|] eqn:E.
    + intros [Ht Hr]%append_empty.
      pose proof (index_of_le _ _ _ E) as Hle.
      pose proof (index_of_split _ _ _ E) as Hs.
      apply (f_equal String.length) in Ht as Hi.
      rewrite str_length_take in Hi. simpl in Hi, Hle.
      assert (i = 0)%nat as -> by lia. simpl in Hs, Hr.
      destruct (IH (Py.drop 4 s)) as [n Hn]; [| done |].
      { rewrite str_length_drop. lia. }
      exists (S n). simpl. by rewrite <- Hn.
    + intros ->. by exists 0%nat.
  - intros [n ->]. induction n as [|n IH]; [done |].
    change (vtt_repeat (S n)) with (".vtt" ++ vtt_repeat n).
    assert (Py.index_of ".vtt" (".vtt" ++ vtt_repeat n) = Some 0%nat) as E.
    { apply index_of_Some. cbn [Py.drop]. rewrite startswith_app.
      repeat split; lia. }
    rewrite replace_unfold, E by done.
    change (0 + String.length ".vtt")%nat with (String.length ".vtt").
    rewrite str_drop_app_length, IH. done.
Qed.

Lemma index_of_char_first c s i :
  Py.index_of (String c EmptyString) s = Some i →
  Py.isin (String c EmptyString) (Py.take i s) = false.
Proof.
  revert i; induction s as [|x s IH]; intros i; cbn [Py.index_of].
  - simpl. by intros [= <-].
  - rewrite startswith_char. case_bool_decide as Hx; [by intros [= <-] |].
    destruct (Py.index_of _ s) as [j|]; [| done]. intros [= <-].
    simpl. apply isin_cons_false. rewrite startswith_char.
    split; [by apply bool_decide_eq_false | by apply IH].
Qed.

(** The parts of a stem cut at most twice at "_". *)
Lemma split_parts st :
  (Py.split st "_" (Some 2%nat) = [st] ∧ Py.isin "_" st = false) ∨
  (∃ a b, Py.split st "_" (Some 2%nat) = [a; b] ∧ st = a ++ "_" ++ b ∧
          Py.isin "_" a = false ∧ Py.isin "_" b = false) ∨
  (∃ a b third,
     Py.split st "_" (Some 2%nat) = [a; b; third] ∧
     st = a ++ "_" ++ b ++ "_" ++ third ∧
     Py.isin "_" a = false ∧ Py.isin "_" b = false).
Proof.
  destruct (Py.index_of "_" st) as [i|] eqn:E1.
  - pose proof (index_of_char_first _ _ _ E1) as Ha.
    pose proof (index_of_split _ _ _ E1) as Hst.
    set (a := Py.take i st) in *.
    set (rest := Py.drop (i + String.length "_") st) in *.
    right. destruct (Py.index_of "_" rest) as [j|] eqn:E2.
    + pose proof (index_of_char_first _ _ _ E2) as Hb.
      pose proof (index_of_split _ _ _ E2) as Hrest.
      right. eexists a, (Py.take j rest), _.
      rewrite Hst, Hrest at 1. rewrite split_three by done.
      repeat split; [| done..]. by rewrite <- Hrest.
    + left. exists a, rest. apply isin_false in E2.
      rewrite Hst at 1. by rewrite split_two.
  - left. apply isin_false in E1. by rewrite split_one.
Qed.

(** The title is empty exactly for the stems whose third part is empty or
    made of ".vtt" only. *)
Lemma title_of_stem_empty st :
  st ≠ EmptyString →
  title_of_stem st = EmptyString ↔ vtt_only_third st.
Proof.
  intros Hne. unfold title_of_stem. split.
  - destruct (split_parts st)
      as [[-> _] | [(a & b & -> & _) | (a & b & third & -> & Hst & Ha & Hb)]];
      [done.. |].
    rewrite replace_underscores. intros [n Hn]%replace_vtt_empty.
    exists a, b, n. repeat split; [done.. |].
    rewrite Hst. do 4 f_equal. rewrite <- Hn.
    symmetry. apply underscores_to_spaces_no_space.
    rewrite Hn. by apply vtt_repeat_char_free.
  - intros (a & b & n & Ha & Hb & ->).
    rewrite split_three by done. rewrite replace_underscores.
    rewrite underscores_to_spaces_id by (by apply vtt_repeat_char_free).
    apply replace_vtt_empty. by exists n.
Qed.

Lemma stem_of_txt_nonempty name :
  Py.endswith name ".txt" = true → stem name ≠ EmptyString.
Proof.
  unfold Py.endswith.
  intros [Hlen%bool_decide_eq_true Hd%bool_decide_eq_true]%andb_true_iff.
  pose proof (str_take_drop (String.length name - String.length ".txt") name)
    as Hname. rewrite Hd in Hname.
  destruct (Py.take (String.length name - String.length ".txt") name)
    as [|x st] eqn:E.
  - by rewrite <- Hname.
  - rewrite <- Hname. by rewrite stem_txt.
Qed.

End EmptyTitle.

Section FillSize.

Context {A : Type} (key value : A → string).

Implicit Types (l : list A) (m : gmap string string).

Local Abbreviation fill := (fill key value).

Lemma size_fill_bound l m : (size (fill m l) ≤ size m + length l)%nat.
Proof.
  revert m; induction l as [|x l IH]; intros m; simpl; [lia |].
  etrans; [apply IH |]. rewrite map_size_insert.
  destruct (m !! key x); simpl; lia.
Qed.

(** The loop adds one entry for each item only when no key comes twice and
    none was there before. *)
Lemma size_fill_full l m :
  size (fill m l) = (size m + length l)%nat →
  NoDup (key <$> l) ∧ ∀ x, x ∈ l → m !! key x = None.
Proof.
  revert m; induction l as [|x l IH]; intros m H.
  - split; [constructor |]. intros x Hx. by apply elem_of_nil in Hx.
  - simpl in H.
    pose proof (size_fill_bound l (<[key x := value x]> m)) as Hle.
    pose proof (map_size_insert (key x) (value x) m) as Hins.
    destruct (m !! key x) as [v|] eqn:Hx; simpl in Hins; [lia |].
    destruct (IH (<[key x := value x]> m)) as [Hnd Hfree]; [lia |].
    assert (∀ y, y ∈ l → key y ≠ key x) as Hne.
    { intros y Hy E. specialize (Hfree y Hy).
      by rewrite E, lookup_insert_eq in Hfree. }
    split.
    + rewrite fmap_cons. apply NoDup_cons. split; [| done].
      intros (y & E & Hy)%list_elem_of_fmap. by apply (Hne y).
    + intros y [-> | Hy]%elem_of_cons; [done |].
      specialize (Hfree y Hy).
      by rewrite lookup_insert_ne in Hfree by (symmetry; by apply Hne).
Qed.

End FillSize.

(** C3, as stated, fails on both counts: two files with the same derived
    title share one entry (the later file overwrites the earlier), and a
    stem whose third part is empty gives the empty title. *)
Lemma load_transcripts_collides :
  length (glob_txt colliding_dir) = 2%nat ∧
  load_transcripts colliding_dir = {[ "Sleep" := "second" ]} ∧
  size (load_transcripts colliding_dir) = 1%nat ∧
  length (glob_txt untitled_dir) = 1%nat ∧
  load_transcripts untitled_dir !! EmptyString = Some "text".
Proof.
  repeat split; vm_compute; reflexivity.
Qed.

(** C3 (amended): in every case the keys of the mapping are the titles
    derived from the text files of the directory.  The mapping has exactly
    one entry per file if and only if these titles are pairwise distinct,
    and the title of each file is then bound to its text.  No entry has the
    empty title if and only if no text file has a stem [a_b_rest] (no
    underscore in [a] and [b]) whose third part is empty or made of ".vtt"
    only. *)
Theorem load_transcripts_entries (dir : list file) :
  dom (load_transcripts dir) = list_to_set (titles dir) ∧
  (size (load_transcripts dir) = length (glob_txt dir) ↔ NoDup (titles dir)) ∧
  (NoDup (titles dir) →
   ∀ f, f ∈ glob_txt dir →
     load_transcripts dir !! title_of (file_name f) = Some (file_text f)) ∧
  (load_transcripts dir !! EmptyString = None ↔
   ∀ f, f ∈ glob_txt dir → ¬ vtt_only_third (stem (file_name f))).
Proof.
  split; [apply load_transcripts_dom |]. split; [| split].
  - split.
    + rewrite load_transcripts_fill. intros H.
      apply (size_fill_full _ file_text _ ∅).
      by rewrite map_size_empty.
    + intros Hnd. rewrite load_transcripts_fill, size_fill;
        [by rewrite map_size_empty | done | done].
  - intros Hnd f Hf. rewrite load_transcripts_fill.
    by apply (lookup_fill (λ f, title_of (file_name f)) file_text).
  - assert (∀ f, f ∈ glob_txt dir →
              title_of (file_name f) = EmptyString
              ↔ vtt_only_third (stem (file_name f))) as Hempty.
    { intros f [Hf _]%list_elem_of_filter.
      apply title_of_stem_empty. by apply stem_of_txt_nonempty. }
    rewrite <- not_elem_of_dom, load_transcripts_dom, elem_of_list_to_set.
    unfold titles. rewrite list_elem_of_fmap. split.
    + intros Hnone f Hf Hvtt. apply Hnone. exists f.
      split; [| done]. symmetry. by apply Hempty.
    + intros Hall (f & Ht & Hf). apply (Hall f Hf). by apply Hempty.
Qed.

Lemma load_transcripts_entries_witness :
  size (load_transcripts sample_dir) = 2%nat ∧
  load_transcripts sample_dir !! "notes" = Some "notes" ∧
  ∀ f, f ∈ glob_txt sample_dir → ¬ vtt_only_third (stem (file_name f)).
Proof.
  assert (titles sample_dir = ["How to Focus"; "notes"]) as Ht
    by (vm_compute; reflexivity).
  assert (NoDup (titles sample_dir)) as Hnd.
  { rewrite Ht. apply (bool_decide_unpack _). vm_compute. exact I. }
  destruct (load_transcripts_entries sample_dir)
    as (_ & Hsize & Hlookup & Hempty).
  split; [| split].
  - by apply Hsize.
  - apply (Hlookup Hnd {| file_name := "notes.txt"; file_text := "notes" |}).
    assert (glob_txt sample_dir
            = [ {| file_name := "ep_01_How_to_Focus.txt";
                   file_text := "focus" |};
                {| file_name := "notes.txt"; file_text := "notes" |} ])
      as -> by (vm_compute; reflexivity).
    apply elem_of_cons. right. apply elem_of_cons. by left.
  - apply Hempty. vm_compute. reflexivity.
Defined.

(** * The session controller *)

(** C2, as stated, fails: [display_answer] runs inside the same [try],
    before [history.append]; when it raises, the engine call has returned
    and yet nothing is appended.  (Here the message of the error quotes the
    tag, so the print of the error line raises in its turn and this
    exception leaves the handler.) *)
Lemma history_kept_when_display_raises :
  (∃ result,
     quoting_engine ∅ (format_history []) "How to sleep?" = Returned result) ∧
  (ask strict_console quoting_engine ∅ [] "How to sleep?").1 = [] ∧
  ∃ message,
    (ask strict_console quoting_engine ∅ [] "How to sleep?").2
    = Uncaught (MarkupError message).
Proof.
  split; [by eexists |]. split; [vm_compute; reflexivity |].
  eexists. vm_compute. reflexivity.
Qed.

(** C2 (amended): one pair (question, answer) is appended to the history
    exactly when the engine call returns and the display of its result,
    which comes before the append, returns too; when either of them
    raises, the history is unchanged. *)
Theorem ask_history
    (console : renderable → outcome unit)
    (rlm : gmap string string → string → string → outcome Prediction)
    (transcripts : gmap string string)
    (history : list (string * string)) (question : string) :
  let history' := (ask console rlm transcripts history question).1 in
  match rlm transcripts (format_history history) question with
  | Returned result =>
      match display_answer console result with
      | Returned _ => history' = (history ++ [(question, answer_of result)])%list
      | Raised _ => history' = history
      end
  | Raised _ => history' = history
  end.
Proof.
  unfold ask, round_trip.
  destruct (rlm transcripts (format_history history) question) as [result|e];
    cbn [bind].
  - destruct (display_answer console result) as [[]|e]; cbn [bind]; [done |].
    by destruct (is_Exception e).
  - by destruct (is_Exception e).
Qed.

(** * The segments of a body in the expected order *)

Section Segments.

Local Arguments String.append : simpl nomatch.

Implicit Types (s a b pre mid post rest inner code : string) (c : ascii).

(** X6: with "Reasoning:" first and "Code:" after it, the reasoning is the
    trimmed text between the two markers and the code is the trimmed rest
    of the body. *)
Lemma segments_in_order pre mid post :
  let body := pre ++ "Reasoning:" ++ mid ++ "Code:" ++ post in
  Py.find body "Reasoning:" = Py.len pre →
  Py.find body "Code:" = Py.len (pre ++ "Reasoning:" ++ mid) →
  segments body = (Py.strip mid, Py.strip post).
Proof.
  intros body Hr Hc. unfold segments. rewrite Hr, Hc.
  unfold Py.len. rewrite !str_length_app.
  change (String.length "Reasoning:") with 10%nat.
  change (String.length "Code:") with 5%nat.
  destruct (Z.gtb_spec (Z.of_nat (String.length pre + (10 + String.length mid))) 0);
    [| lia].
  rewrite slice_between, slice_from by lia.
  replace (Z.to_nat (Z.of_nat (String.length pre) + Z.of_nat 10))
    with (String.length pre + 10)%nat by lia.
  replace (Z.to_nat (_ - _)) with (String.length mid) by lia.
  replace (Z.to_nat (_ + Z.of_nat 5))
    with (String.length (pre ++ "Reasoning:" ++ mid) + 5)%nat
    by (rewrite !str_length_app; simpl; lia).
  assert (Py.drop (String.length pre + 10) body = mid ++ "Code:" ++ post)
    as -> by (unfold body; by rewrite str_drop_app_plus).
  assert (Py.drop (String.length (pre ++ "Reasoning:" ++ mid) + 5) body
          = post) as ->.
  { replace body with ((pre ++ "Reasoning:" ++ mid) ++ "Code:" ++ post)
      by (unfold body; by rewrite !str_app_assoc).
    by rewrite str_drop_app_plus. }
  by rewrite str_take_app_length.
Qed.

(** X7: without a "Code:" marker the reasoning is the trimmed text from the
    end of the first "Reasoning:" to the end of the body, and there is no
    code. *)
Lemma segments_no_code pre rest :
  let body := pre ++ "Reasoning:" ++ rest in
  Py.find body "Reasoning:" = Py.len pre →
  Py.isin "Code:" body = false →
  segments body = (Py.strip rest, EmptyString).
Proof.
  intros body Hr Hc. unfold segments.
  apply isin_false, find_absent in Hc. rewrite Hr, Hc.
  change (-1 >? 0) with false. cbv iota.
  unfold Py.len. change (String.length "Reasoning:") with 10%nat.
  rewrite slice_from by lia.
  replace (Z.to_nat _) with (String.length pre + 10)%nat by lia.
  unfold body. by rewrite str_drop_app_plus.
Qed.

Lemma lstrip_nonspace c a s :
  Py.isspace c = false → Py.lstrip (String c a ++ s) = String c a ++ s.
Proof. intros H. simpl. by rewrite H. Qed.

Lemma rstrip_app a b :
  Py.rstrip b ≠ EmptyString → Py.rstrip (a ++ b) = a ++ Py.rstrip b.
Proof.
  intros Hb. induction a as [|x a IH]; [done |].
  simpl. rewrite IH.
  destruct (a ++ Py.rstrip b) eqn:E; [| done].
  destruct a; simpl in E; [done | discriminate].
Qed.

(** X8: a code segment in a "python" fence is shown without the fence,
    trimmed. *)
Lemma strip_fence_python inner :
  strip_fence ("```python" ++ inner ++ "```") = Py.strip inner.
Proof.
  unfold strip_fence.
  assert (Py.strip ("```python" ++ inner ++ "```")
          = "```python" ++ inner ++ "```") as ->.
  { unfold Py.strip. rewrite lstrip_nonspace by done.
    rewrite <- !str_app_assoc, rstrip_app by done. done. }
  cbn [drop_first_prefix]. rewrite startswith_app.
  rewrite slice_from by done. change (Z.to_nat (Py.len "```python")) with 9%nat.
  change (Py.drop 9 ("```python" ++ ?x)) with x.
  rewrite endswith_app.
  change (-3) with (- Z.of_nat (String.length "```")).
  by rewrite slice_drop_last.
Qed.

(** X9: a code segment in a fence without a language is shown without
    the fence, trimmed. *)
Lemma strip_fence_bare inner :
  Py.startswith inner "python" = false →
  strip_fence ("```" ++ inner ++ "```") = Py.strip inner.
Proof.
  intros Hlang. unfold strip_fence.
  assert (Py.strip ("```" ++ inner ++ "```") = "```" ++ inner ++ "```") as ->.
  { unfold Py.strip. rewrite lstrip_nonspace by done.
    rewrite <- !str_app_assoc, rstrip_app by done. done. }
  cbn [drop_first_prefix].
  assert (Py.startswith ("```" ++ inner ++ "```") "```python" = false) as ->.
  { change (Py.startswith ("```" ++ inner ++ "```") "```python")
      with (Py.startswith (inner ++ "```") "python").
    destruct (Py.startswith (inner ++ "```") "python") eqn:E; [| done].
    apply (startswith_skip inner "`" "``" "python") in E; [congruence | done]. }
  rewrite startswith_app.
  rewrite slice_from by done. change (Z.to_nat (Py.len "```")) with 3%nat.
  change (Py.drop 3 ("```" ++ ?x)) with x.
  rewrite endswith_app.
  change (-3) with (- Z.of_nat (String.length "```")).
  by rewrite slice_drop_last.
Qed.

(** X10: a code segment without fences is shown trimmed and otherwise
    unchanged. *)
Lemma strip_fence_plain code :
  Py.startswith (Py.strip code) "```" = false →
  Py.endswith (Py.strip code) "```" = false →
  strip_fence code = Py.strip code.
Proof.
  intros Hs He. unfold strip_fence. cbn [drop_first_prefix].
  assert (Py.startswith (Py.strip code) "```python" = false) as ->.
  { destruct (Py.startswith (Py.strip code) "```python") eqn:E; [| done].
    apply startswith_spec in E as [r E].
    rewrite E in Hs.
    change ("```python" ++ r) with ("```" ++ ("python" ++ r)) in Hs.
    by rewrite startswith_app in Hs. }
  rewrite Hs, He. apply strip_idemp.
Qed.

End Segments.

(** * The primitives on concrete values *)

Example slice_negative_stop : Py.slice "abcdef" None (Some (-3)) = "abc".
Proof. reflexivity. Qed.

Example slice_crossed_bounds : Py.slice "abcdef" (Some 4) (Some 2) = EmptyString.
Proof. reflexivity. Qed.

Example slice_past_the_end : Py.slice "abc" (Some 1) (Some 10) = "bc".
Proof. reflexivity. Qed.

Example split_maxsplit :
  Py.split "a_b_c_d" "_" (Some 2%nat) = ["a"; "b"; "c_d"].
Proof. reflexivity. Qed.

Example split_trailing_separator :
  Py.split "xiterationyiteration" "iteration" None = ["x"; "y"; EmptyString].
Proof. vm_compute. reflexivity. Qed.

Example replace_left_to_right :
  Py.replace "a.vtt.v.vtttt" ".vtt" EmptyString = "a.vtt".
Proof. vm_compute. reflexivity. Qed.

Example strip_both_ends :
  Py.strip (Py.NL ++ "  a b " ++ Py.NL) = "a b".
Proof. reflexivity. Qed.

Example find_absent_is_minus_one : Py.find "Reasoning: r" "Code:" = -1.
Proof. reflexivity. Qed.

Example str_of_nat_decimal :
  Py.str_of_nat 0 = "0" ∧ Py.str_of_nat 12 = "12".
Proof. split; reflexivity. Qed.

Example stem_of_names :
  stem "notes.txt" = "notes" ∧ stem "a.vtt.txt" = "a.vtt" ∧
  stem ".txt" = ".txt".
Proof. repeat split; reflexivity. Qed.

Example fence_with_other_language :
  strip_fence ("```js" ++ Py.NL ++ "print(1)" ++ Py.NL ++ "```")
  = "js" ++ Py.NL ++ "print(1)".
Proof. vm_compute. reflexivity. Qed.

Example quit_ends_the_loop :
  loop_body strict_console quoting_engine ∅ example_history (Returned " QUIT ")
  = (example_history, Break).
Proof. vm_compute. reflexivity. Qed.

Example reset_clears_history :
  loop_body strict_console quoting_engine ∅ example_history (Returned "reset")
  = ([], Continue).
Proof. vm_compute. reflexivity. Qed.

Example end_of_input_ends_the_loop :
  loop_body strict_console quoting_engine ∅ example_history (Raised EOFError)
  = (example_history, Break).
Proof. vm_compute. reflexivity. Qed.

(** * Further properties of the progress interpreter *)

Section InterpreterMore.

Local Arguments String.append : simpl nomatch.

Implicit Types (s a b sub : string) (c x : ascii).

Lemma drop_app_le i a b :
  (i ≤ String.length a)%nat → Py.drop i (a ++ b) = Py.drop i a ++ b.
Proof.
  revert a; induction i as [|i IH]; intros [|x a] H; simpl in *;
    try done; try lia.
  apply IH. lia.
Qed.

Lemma isin_app_l sub a b :
  Py.isin sub a = true → Py.isin sub (a ++ b) = true.
Proof.
  intros [i Hi]%isin_true.
  apply index_of_Some in Hi as (Hp & Hle & _).
  destruct (Py.isin sub (a ++ b)) eqn:E; [done |].
  apply isin_false, index_of_None with (j := i) in E.
  rewrite drop_app_le in E by done.
  apply startswith_spec in Hp as [r Hr]. rewrite Hr in E.
  by rewrite str_app_assoc, startswith_app in E.
Qed.

Lemma isin_first_line sub msg :
  Py.isin sub (first_line msg) = true → Py.isin sub msg = true.
Proof.
  unfold first_line, before.
  destruct (Py.index_of Py.NL msg) as [i|]; [| done].
  intros H. rewrite <- (str_take_drop i msg). by apply isin_app_l.
Qed.

(** The marker ends with the token that the index is cut at. *)
Lemma isin_marker_token s :
  Py.isin "RLM iteration" s = true → Py.isin "iteration" s = true.
Proof.
  intros [i Hi]%isin_true.
  apply index_of_Some in Hi as (Hp & _).
  apply startswith_spec in Hp as [r Hr].
  destruct (Py.isin "iteration" s) eqn:E; [done |].
  apply isin_false, index_of_None with (j := (i + 4)%nat) in E.
  rewrite <- str_drop_drop, Hr in E.
  change (Py.drop 4 ("RLM iteration" ++ r)) with ("iteration" ++ r) in E.
  by rewrite startswith_app in E.
Qed.

Lemma before_char_free c s :
  Py.isin (String c EmptyString) (before (String c EmptyString) s) = false.
Proof.
  induction s as [|x s IH]; [done |].
  rewrite before_char_cons. destruct (decide (c = x)); [done |].
  apply isin_cons_false. split; [| done].
  rewrite startswith_char. by apply bool_decide_eq_false.
Qed.

Lemma lstrip_char_free c s :
  Py.isin (String c EmptyString) s = false →
  Py.isin (String c EmptyString) (Py.lstrip s) = false.
Proof.
  induction s as [|x s IH]; [done |]. intros H. simpl.
  destruct (Py.isspace x); [| done].
  apply isin_cons_false in H as [_ H]. by apply IH.
Qed.

Lemma rstrip_char_free c s :
  Py.isin (String c EmptyString) s = false →
  Py.isin (String c EmptyString) (Py.rstrip s) = false.
Proof.
  induction s as [|x s IH]; [done |]. intros H.
  apply isin_cons_false in H as [Hx H]. specialize (IH H).
  rewrite startswith_char in Hx.
  rewrite rstrip_cons. destruct (Py.rstrip s) as [|y r].
  - destruct (Py.isspace x); [done |].
    apply isin_cons_false. by rewrite startswith_char.
  - apply isin_cons_false. by rewrite startswith_char.
Qed.

Lemma body_events_panels reasoning code :
  is_panel_list (body_events reasoning code).
Proof.
  unfold body_events.
  by destruct (bool_decide (reasoning = EmptyString)),
              (bool_decide (code = EmptyString)).
Qed.

Lemma display_reasoning_bounds reasoning :
  reasoning ≠ EmptyString →
  display_reasoning reasoning ≠ EmptyString ∧
  Py.len (display_reasoning reasoning) ≤ 503.
Proof.
  intros Hne. unfold display_reasoning.
  destruct (Z.gtb_spec (Py.len reasoning) 500) as [H|H].
  - rewrite slice_to by done. unfold Py.len in *.
    rewrite str_length_app, str_length_take. simpl String.length.
    split; [| lia].
    intros E. apply (f_equal String.length) in E.
    rewrite str_length_app in E. simpl in E. lia.
  - split; [done | lia].
Qed.

Lemma display_code_bounds code : Py.len (display_code code) ≤ 818.
Proof.
  unfold display_code.
  destruct (Z.gtb_spec (Py.len code) 800) as [H|H]; [| lia].
  rewrite slice_to by done. unfold Py.len in *.
  rewrite !str_length_app, str_length_take. simpl String.length. lia.
Qed.

Lemma body_events_bounds reasoning code :
  Forall within_display_bounds (body_events reasoning code).
Proof.
  unfold body_events.
  destruct (bool_decide_reflect (reasoning = EmptyString)) as [|Hr],
           (bool_decide (code = EmptyString)); simpl;
    repeat constructor;
    try apply display_code_bounds; by apply display_reasoning_bounds.
Qed.

End InterpreterMore.

(** X1: the handler raises nothing but [IndexError], and it raises it
    exactly when the message carries the marker and its first line has no
    "iteration" token. *)
Theorem emit_exception (msg : string) (e : exn) :
  emit msg = Raised e ↔
    e = IndexError ∧ Py.isin "RLM iteration" msg = true ∧
    Py.isin "iteration" (first_line msg) = false.
Proof.
  destruct (Py.isin "RLM iteration" msg) eqn:Hm.
  - rewrite emit_marked by done.
    destruct (Py.isin "iteration" (first_line msg)); split.
    + done.
    + by intros (_ & _ & ?).
    + by intros [= <-].
    + by intros (-> & _).
  - rewrite emit_unmarked by done. split; [done | by intros (_ & ? & _)].
Qed.

(** X2: when the marker stands in the first line of the message, the
    handler returns, and the first thing it prints is the step. *)
Theorem emit_marker_in_first_line (msg : string) :
  Py.isin "RLM iteration" (first_line msg) = true →
  ∃ index panels, emit msg = Returned (IterationStart index :: panels).
Proof.
  intros H. rewrite emit_marked by (by apply isin_first_line).
  rewrite (isin_marker_token _ H). by eauto.
Qed.

Lemma emit_marker_in_first_line_witness :
  ∃ index panels,
    emit ("INFO RLM iteration 2/20" ++ Py.NL ++ "RLM iteration")
    = Returned (IterationStart index :: panels).
Proof. apply emit_marker_in_first_line. vm_compute. reflexivity. Defined.

(** X3: a record gives no event at all, or the step followed by at most
    one reasoning panel and then at most one code panel, in this order. *)
Theorem emit_event_order (msg : string) (events : list ProgressEvent) :
  emit msg = Returned events →
  events = [] ∨
  ∃ index panels,
    events = IterationStart index :: panels ∧ is_panel_list panels.
Proof.
  destruct (Py.isin "RLM iteration" msg) eqn:Hm.
  - rewrite emit_marked by done.
    destruct (Py.isin "iteration" (first_line msg)); [| done].
    intros [= <-]. right. eexists _, _. split; [done |].
    destruct (body_of msg) as [content|]; [| done].
    destruct (Py.isin "Reasoning:" content); [| done].
    apply body_events_panels.
  - rewrite emit_unmarked by done. intros [= <-]. by left.
Qed.

Lemma emit_event_order_witness :
  [IterationStart "3"; ReasoningBlock "because X"; CodeBlock "print(1)"] = [] ∨
  ∃ index panels,
    [IterationStart "3"; ReasoningBlock "because X"; CodeBlock "print(1)"]
    = IterationStart index :: panels ∧ is_panel_list panels.
Proof. apply (emit_event_order example_line). vm_compute. reflexivity. Defined.

(** X4: whatever the message, a reasoning panel is never empty and never
    longer than 500 characters plus the marker "...", and a code panel is
    never longer than 800 characters plus the line "# ... (truncated)". *)
Theorem emit_display_bounds (msg : string) (events : list ProgressEvent) :
  emit msg = Returned events → Forall within_display_bounds events.
Proof.
  destruct (Py.isin "RLM iteration" msg) eqn:Hm.
  - rewrite emit_marked by done.
    destruct (Py.isin "iteration" (first_line msg)); [| done].
    intros [= <-]. apply Forall_cons_2; [done |].
    destruct (body_of msg) as [content|]; [| done].
    destruct (Py.isin "Reasoning:" content); [| done].
    apply body_events_bounds.
  - rewrite emit_unmarked by done. by intros [= <-].
Qed.

Lemma emit_display_bounds_witness :
  Forall within_display_bounds
    [IterationStart "1"; ReasoningBlock (Py.take 500 (filler 600) ++ "...")].
Proof.
  apply (emit_display_bounds
           ("RLM iteration 1/2" ++ Py.NL ++ "Reasoning: " ++ filler 600)).
  vm_compute. reflexivity.
Defined.

(** X5: the step index that is printed has no "/" in it and no white space
    around it. *)
Theorem emit_index_clean (msg index : string) (panels : list ProgressEvent) :
  emit msg = Returned (IterationStart index :: panels) →
  Py.isin "/" index = false ∧ Py.strip index = index.
Proof.
  destruct (Py.isin "RLM iteration" msg) eqn:Hm.
  - rewrite emit_marked by done.
    destruct (Py.isin "iteration" (first_line msg)); [| done].
    intros [= <- _]. split; [| apply strip_idemp].
    apply rstrip_char_free, lstrip_char_free, (before_char_free "/").
  - by rewrite emit_unmarked.
Qed.

Lemma emit_index_clean_witness :
  Py.isin "/" "abc" = false ∧ Py.strip "abc" = "abc".
Proof.
  apply (emit_index_clean "RLM iteration  abc /20" "abc" []).
  vm_compute. reflexivity.
Defined.

Lemma segments_in_order_witness :
  segments ("Plan." ++ Py.NL ++ "Reasoning:" ++ " look it up " ++ "Code:"
            ++ " print(1)")
  = ("look it up", "print(1)").
Proof.
  apply (segments_in_order ("Plan." ++ Py.NL) " look it up " " print(1)");
    vm_compute; reflexivity.
Defined.

Lemma segments_no_code_witness :
  segments ("Reasoning:" ++ " done ") = ("done", EmptyString).
Proof.
  apply (segments_no_code EmptyString " done "); vm_compute; reflexivity.
Defined.

Lemma strip_fence_bare_witness :
  strip_fence ("```" ++ (Py.NL ++ "x = 1" ++ Py.NL) ++ "```") = "x = 1".
Proof.
  apply (strip_fence_bare (Py.NL ++ "x = 1" ++ Py.NL)). vm_compute. reflexivity.
Defined.

Lemma strip_fence_plain_witness : strip_fence " x = 1 " = "x = 1".
Proof. apply (strip_fence_plain " x = 1 "); vm_compute; reflexivity. Defined.

(** * Further properties of the corpus loader *)

Section FillMore.

Context {A : Type} (key value : A → string).

Implicit Types (l : list A) (m : gmap string string).

Local Abbreviation fill := (fill key value).

Lemma lookup_fill_last l m (t : string) :
  fill m l !! t =
    match last (filter (λ x, key x = t) l) with
    | Some x => Some (value x)
    | None => m !! t
    end.
Proof.
  revert m; induction l as [|x l IH]; intros m; [done |].
  simpl. rewrite IH. destruct (decide (key x = t)) as [E|E].
  - rewrite filter_cons_True, last_cons by done.
    destruct (last (filter _ l)); [done |].
    by rewrite <- E, lookup_insert_eq.
  - rewrite filter_cons_False by done.
    destruct (last (filter _ l)); [done |].
    by rewrite lookup_insert_ne.
Qed.

End FillMore.

Section TitlesMore.

Local Arguments String.append : simpl nomatch.

Implicit Types (s a b old rest : string) (c x : ascii).

Lemma take_char_free c n s :
  Py.isin (String c EmptyString) s = false →
  Py.isin (String c EmptyString) (Py.take n s) = false.
Proof.
  revert s; induction n as [|n IH]; intros [|x s] H; simpl; try done.
  apply isin_cons_false in H as [Hx H].
  apply isin_cons_false. rewrite startswith_char in *. split; [done |].
  by apply IH.
Qed.

Lemma drop_char_free c n s :
  Py.isin (String c EmptyString) s = false →
  Py.isin (String c EmptyString) (Py.drop n s) = false.
Proof.
  revert s; induction n as [|n IH]; intros [|x s] H; simpl; try done.
  apply isin_cons_false in H as [_ H]. by apply IH.
Qed.

(** Taking a text out of a string brings no new character into it. *)
Lemma replace_go_char_free c fuel old s :
  Py.isin (String c EmptyString) s = false →
  Py.isin (String c EmptyString) (Py.replace_go fuel old EmptyString s) = false.
Proof.
  revert s; induction fuel as [|fuel IH]; intros s H; simpl; [done |].
  destruct (Py.index_of old s) as [i|]; [| done].
  apply isin_char_app; [by apply take_char_free |].
  by apply IH, drop_char_free.
Qed.

Lemma underscores_to_spaces_free s :
  Py.isin "_" (underscores_to_spaces s) = false.
Proof.
  induction s as [|x s IH]; [done |]. simpl.
  apply isin_cons_false. split; [| done].
  rewrite startswith_char. apply bool_decide_eq_false.
  by destruct (decide (x = "_"%char)) as [->|]; [| congruence].
Qed.

End TitlesMore.

(** X11: the corpus is empty exactly when the directory has no file whose
    name ends in ".txt" (the case in which [main] stops at start-up). *)
Theorem load_transcripts_empty (dir : list file) :
  load_transcripts dir = ∅ ↔ glob_txt dir = [].
Proof.
  split.
  - intros H. destruct (glob_txt dir) as [|f l] eqn:E; [done |].
    assert (title_of (file_name f) ∈ dom (load_transcripts dir)) as Hin.
    { rewrite load_transcripts_dom. unfold titles. rewrite E.
      rewrite fmap_cons, list_to_set_cons. apply elem_of_union_l.
      by apply elem_of_singleton. }
    rewrite H, dom_empty_L in Hin. by apply elem_of_empty in Hin.
  - intros H. unfold load_transcripts. by rewrite H.
Qed.

(** X12: the corpus never has more entries than the directory has text
    files. *)
Theorem load_transcripts_size_le (dir : list file) :
  (size (load_transcripts dir) ≤ length (glob_txt dir))%nat.
Proof.
  rewrite load_transcripts_fill.
  etrans; [apply size_fill_bound |]. by rewrite map_size_empty.
Qed.

(** X13: the text kept under a title is the text of the last file, in the
    order of enumeration, whose name gives this title; a title that no file
    gives is not in the corpus. *)
Theorem load_transcripts_last_wins (dir : list file) (title : string) :
  load_transcripts dir !! title =
    file_text <$>
      last (filter (λ f, title_of (file_name f) = title) (glob_txt dir)).
Proof.
  rewrite load_transcripts_fill, lookup_fill_last.
  by destruct (last _).
Qed.

(** X14: the title taken from a stem of three parts has no underscore. *)
Theorem title_without_underscore (a b rest : string) :
  Py.isin "_" a = false → Py.isin "_" b = false →
  Py.isin "_" (title_of (a ++ "_" ++ b ++ "_" ++ rest ++ ".txt")) = false.
Proof.
  intros Ha Hb. unfold title_of.
  rewrite <- !str_app_assoc, stem_txt by (by destruct a).
  unfold title_of_stem. rewrite !str_app_assoc, split_three by done.
  rewrite replace_underscores. unfold Py.replace.
  apply (replace_go_char_free "_"), underscores_to_spaces_free.
Qed.

Lemma title_without_underscore_witness :
  Py.isin "_" (title_of "ep_01_How_to_Focus.txt") = false.
Proof.
  apply (title_without_underscore "ep" "01" "How_to_Focus");
    vm_compute; reflexivity.
Defined.

(** * Further properties of the history formatter *)

Section FormatterMore.

Local Arguments String.append : simpl nomatch.

Implicit Types (history : list (string * string)) (lines : list string).

Lemma enumerate_app {A} (l l' : list A) n :
  enumerate n (l ++ l')%list
  = (enumerate n l ++ enumerate (n + length l) l')%list.
Proof.
  revert n; induction l as [|x l IH]; intros n; simpl.
  - by rewrite Nat.add_0_r.
  - rewrite IH. by replace (S n + length l)%nat with (n + S (length l))%nat by lia.
Qed.

Lemma pair_lines_snoc n history q a :
  pair_lines n (history ++ [(q, a)])%list
  = (pair_lines n history
     ++ [EmptyString;
         ("Q" ++ Py.str_of_nat (n + length history) ++ ": " ++ q)%string;
         ("A" ++ Py.str_of_nat (n + length history) ++ ": " ++ a)%string])%list.
Proof.
  unfold pair_lines. by rewrite enumerate_app, flat_map_app.
Qed.

Lemma join_app sep l lines l' lines' :
  join sep (l :: lines ++ l' :: lines')%list
  = join sep (l :: lines) ++ sep ++ join sep (l' :: lines').
Proof.
  revert l; induction lines as [|x lines IH]; intros l.
  - done.
  - change (l :: (x :: lines) ++ l' :: lines')%list
      with (l :: x :: (lines ++ l' :: lines'))%list.
    rewrite !join_cons, IH. by rewrite !str_app_assoc.
Qed.

End FormatterMore.

(** X15: the sentinel is the text of the empty history and of no other
    history. *)
Theorem format_history_sentinel (history : list (string * string)) :
  format_history history = "No previous conversation." ↔ history = [].
Proof.
  split; [| by intros ->].
  destruct history as [|p history]; [done |]. intros H.
  rewrite format_history_lines in H by done.
  destruct (join_head Py.NL "Previous conversation:"
              (pair_lines 1 (p :: history))) as [rest E].
  rewrite E in H. discriminate.
Qed.

(** X16: one more exchange adds its two lines, numbered with the new length
    of the history, at the end of the text: the text of the history so far
    (or the header alone when there was none) is kept as it is. *)
Theorem format_history_snoc (history : list (string * string)) (q a : string) :
  format_history (history ++ [(q, a)]) =
    match history with
    | [] => "Previous conversation:"
    | _ => format_history history
    end
    ++ Py.NL ++ Py.NL
    ++ "Q" ++ Py.str_of_nat (S (length history)) ++ ": " ++ q ++ Py.NL
    ++ "A" ++ Py.str_of_nat (S (length history)) ++ ": " ++ a.
Proof.
  rewrite format_history_lines by (by destruct history).
  rewrite pair_lines_snoc, join_app.
  assert (join Py.NL ("Previous conversation:" :: pair_lines 1 history)
          = match history with
            | [] => "Previous conversation:"
            | _ => format_history history
            end) as ->.
  { destruct history as [|p history]; [done |].
    by rewrite format_history_lines. }
  rewrite !join_cons. simpl join.
  change (1 + length history)%nat with (S (length history)).
  f_equal. f_equal. change (EmptyString ++ ?x) with x.
  by rewrite !str_app_assoc.
Qed.

(** * Further properties of the session controller *)

Section SessionMore.

Variable console : renderable → outcome unit.
Variable rlm : gmap string string → string → string → outcome Prediction.
Variable transcripts : gmap string string.

Implicit Types (history : list (string * string)) (text : string).

Lemma loop_body_history history input :
  (loop_body console rlm transcripts history input).1
  = (try_body console rlm transcripts history input).1.
Proof.
  unfold loop_body.
  by destruct (try_body console rlm transcripts history input)
    as [h' [| |[]]].
Qed.

Lemma ask_cases history question :
  (ask console rlm transcripts history question).1 = history ∨
  ∃ result,
    rlm transcripts (format_history history) question = Returned result ∧
    (ask console rlm transcripts history question).1
    = (history ++ [(question, answer_of result)])%list.
Proof.
  unfold ask, round_trip.
  destruct (rlm transcripts (format_history history) question)
    as [result|e]; cbn [bind].
  - destruct (display_answer console result) as [[]|e]; cbn [bind].
    + right. by exists result.
    + left. by destruct (is_Exception e).
  - left. by destruct (is_Exception e).
Qed.

Lemma lower_nonempty text cmd :
  lower (Py.strip text) = cmd → cmd ≠ EmptyString →
  Py.strip text ≠ EmptyString.
Proof. intros <- H E. by rewrite E in H. Qed.

End SessionMore.

(** X17: one pass through the loop leaves the history as it was, or empties
    it, or adds one pair to it: the line typed, trimmed, with the answer of
    the result that the engine returned for it. *)
Theorem loop_body_history_step
    (console : renderable → outcome unit)
    (rlm : gmap string string → string → string → outcome Prediction)
    (transcripts : gmap string string)
    (history : list (string * string)) (input : outcome string) :
  let history' := (loop_body console rlm transcripts history input).1 in
  history' = history ∨ history' = [] ∨
  ∃ text result,
    input = Returned text ∧
    rlm transcripts (format_history history) (Py.strip text) = Returned result ∧
    history' = (history ++ [(Py.strip text, answer_of result)])%list.
Proof.
  cbv zeta. rewrite loop_body_history. unfold try_body.
  destruct (console Prompt) as [[]|e]; cbn [bind]; [| by left].
  destruct input as [text|e]; [| by left].
  repeat (case_bool_decide; [by auto |]).
  destruct (bind (console Blank) _) as [[]|e]; [| by left].
  destruct (ask_cases console rlm transcripts history (Py.strip text))
    as [-> | (result & Hr & ->)]; [by left |].
  right; right. by exists text, result.
Qed.

(** X18: the line "reset", in any case and with white space around it,
    empties the history, whatever its length and whatever the console does
    after the prompt. *)
Theorem reset_empties_history
    (console : renderable → outcome unit)
    (rlm : gmap string string → string → string → outcome Prediction)
    (transcripts : gmap string string)
    (history : list (string * string)) (text : string) :
  console Prompt = Returned () →
  lower (Py.strip text) = "reset" →
  (loop_body console rlm transcripts history (Returned text)).1 = [].
Proof.
  intros Hprompt Hcmd. rewrite loop_body_history. unfold try_body.
  rewrite Hprompt. cbn [bind].
  rewrite bool_decide_eq_false_2 by (by eapply lower_nonempty).
  by rewrite Hcmd.
Qed.

Lemma reset_empties_history_witness :
  (loop_body strict_console quoting_engine ∅ example_history
     (Returned "  ReSet ")).1 = [].
Proof. apply reset_empties_history; vm_compute; reflexivity. Defined.

(** X19: the lines "quit", "exit" and "q", in any case and with white space
    around them, end the loop and leave the history as it is. *)
Theorem quit_ends_loop
    (console : renderable → outcome unit)
    (rlm : gmap string string → string → string → outcome Prediction)
    (transcripts : gmap string string)
    (history : list (string * string)) (text : string) :
  console Prompt = Returned () →
  lower (Py.strip text) ∈ ["quit"; "exit"; "q"] →
  loop_body console rlm transcripts history (Returned text) = (history, Break).
Proof.
  intros Hprompt Hcmd. unfold loop_body, try_body.
  rewrite Hprompt. cbn [bind].
  rewrite bool_decide_eq_false_2.
  - by rewrite bool_decide_eq_true_2.
  - intros E. rewrite E in Hcmd.
    apply (bool_decide_pack _) in Hcmd. by vm_compute in Hcmd.
Qed.

Lemma quit_ends_loop_witness :
  loop_body strict_console quoting_engine ∅ example_history (Returned " Exit")
  = (example_history, Break).
Proof.
  apply quit_ends_loop; [vm_compute; reflexivity |].
  apply (bool_decide_unpack _). vm_compute. exact I.
Defined.

Section TotalConsole.

Variable console : renderable → outcome unit.
Variable rlm : gmap string string → string → string → outcome Prediction.
Variable transcripts : gmap string string.

(** A console none of whose calls raises. *)
Hypothesis console_returns : ∀ r, console r = Returned ().

Implicit Types (history : list (string * string)) (text : string).

Lemma display_answer_returns result :
  display_answer console result = Returned ().
Proof.
  unfold display_answer. rewrite !console_returns. cbn [bind].
  destruct (sources_text result); [| done].
  by rewrite !console_returns.
Qed.

Lemma ask_total history question :
  ask console rlm transcripts history question =
    match rlm transcripts (format_history history) question with
    | Returned result =>
        ((history ++ [(question, answer_of result)])%list, Continue)
    | Raised e =>
        (history, if is_Exception e then Continue else Uncaught e)
    end.
Proof.
  unfold ask, round_trip.
  destruct (rlm transcripts (format_history history) question)
    as [result|e]; cbn [bind].
  - rewrite display_answer_returns. cbn [bind]. by rewrite console_returns.
  - destruct (is_Exception e); [| done].
    by rewrite !console_returns.
Qed.

Lemma show_history_returns history :
  show_history console history = Returned ().
Proof.
  unfold show_history.
  assert (∀ l, print_all console l = Returned ()) as Hall.
  { induction l as [|r l IH]; [done |]. simpl.
    by rewrite console_returns. }
  destruct history; rewrite ?console_returns, ?Hall; cbn [bind];
    by rewrite ?console_returns.
Qed.

Lemma question_not_command text :
  is_question text = true →
  Py.strip text ≠ EmptyString ∧
  (lower (Py.strip text) ∉ ["quit"; "exit"; "q"]) ∧
  lower (Py.strip text) ≠ "help" ∧
  lower (Py.strip text) ≠ "reset" ∧
  lower (Py.strip text) ≠ "history".
Proof.
  unfold is_question. intros [H1 H2]%andb_true_iff.
  apply negb_true_iff, bool_decide_eq_false in H1, H2.
  split; [done |].
  repeat split; intros H; apply H2; rewrite ?H;
    repeat (apply elem_of_cons in H as [->|H]);
    try (by apply elem_of_nil in H);
    apply (bool_decide_unpack _); by vm_compute.
Qed.

Lemma try_body_question history text :
  is_question text = true →
  try_body console rlm transcripts history (Returned text)
  = ask console rlm transcripts history (Py.strip text).
Proof.
  intros (H0 & H1 & H2 & H3 & H4)%question_not_command.
  unfold try_body. rewrite console_returns. cbn [bind].
  rewrite !bool_decide_eq_false_2 by done.
  destruct history; rewrite !console_returns; cbn [bind];
    by rewrite ?console_returns.
Qed.

End TotalConsole.

(** X20: with a console that never raises, a line that is a question is
    put to the engine trimmed, with the formatted history.  When the engine
    returns, the pair is appended and the loop goes on; when it raises an
    [Exception], the history is kept and the loop goes on; when it raises
    [KeyboardInterrupt], the history is kept and the loop ends; any other
    exception outside [Exception] leaves the loop uncaught. *)
Theorem question_round_trip
    (console : renderable → outcome unit)
    (rlm : gmap string string → string → string → outcome Prediction)
    (transcripts : gmap string string)
    (history : list (string * string)) (text : string) :
  (∀ r, console r = Returned ()) →
  is_question text = true →
  loop_body console rlm transcripts history (Returned text) =
    match rlm transcripts (format_history history) (Py.strip text) with
    | Returned result =>
        ((history ++ [(Py.strip text, answer_of result)])%list, Continue)
    | Raised e =>
        (history,
         if is_Exception e then Continue
         else match e with KeyboardInterrupt => Break | _ => Uncaught e end)
    end.
Proof.
  intros Hconsole Hq. unfold loop_body.
  rewrite try_body_question, ask_total by done.
  by destruct (rlm transcripts (format_history history) (Py.strip text))
    as [result|[]].
Qed.

(** A console that prints everything, and an engine that fails. *)
Lemma question_round_trip_witness :
  loop_body (λ _, Returned ())
    (λ _ _ _, Raised (OtherException "rate limit")) ∅ example_history
    (Returned " What about sleep? ")
  = (example_history, Continue).
Proof.
  apply (question_round_trip (λ _, Returned ())
           (λ _ _ _, Raised (OtherException "rate limit")));
    [done | vm_compute; reflexivity].
Defined.

(** X22: over a whole session the history grows by at most one exchange
    for each thing the user does. *)
Theorem main_loop_history_length
    (console : renderable → outcome unit)
    (rlm : gmap string string → string → string → outcome Prediction)
    (transcripts : gmap string string)
    (history : list (string * string)) (stdin : list keyboard) :
  (length (main_loop console rlm transcripts history stdin).1
   ≤ length history + length stdin)%nat.
Proof.
  assert (∀ h input,
    (length (loop_body console rlm transcripts h input).1
     ≤ S (length h))%nat) as Hstep.
  { intros h input. rewrite loop_body_history. unfold try_body.
    destruct (bind (console Prompt) _) as [text|e]; simpl; [| lia].
    repeat (case_bool_decide; [simpl; lia |]).
    destruct (bind (console Blank) _) as [[]|e]; simpl; [| lia].
    destruct (ask_cases console rlm transcripts h (Py.strip text))
      as [-> | (result & _ & ->)]; [lia |].
    rewrite length_app. simpl. lia. }
  revert history; induction stdin as [|key stdin IH]; intros history.
  - simpl. specialize (Hstep history (Raised EOFError)).
    unfold loop_body, try_body in *.
    destruct (console Prompt) as [[]|[]]; simpl in *; lia.
  - simpl. specialize (Hstep history (read key)).
    destruct (loop_body console rlm transcripts history (read key))
      as [h' [| |e]]; simpl in *; [| lia..].
    specialize (IH h'). lia.
Qed.

(** X23: the answers listed by the "history" command and the question in
    the rule are cut for display only: a text of at most [limit] characters
    is shown as it is, a longer one as its first [limit] characters and
    "...". *)
Theorem elide_display (limit : Z) (s : string) :
  0 ≤ limit →
  (Py.len s ≤ limit → elide limit s = s) ∧
  (limit < Py.len s →
   elide limit s = Py.take (Z.to_nat limit) s ++ "..." ∧
   Py.len (Py.take (Z.to_nat limit) s) = limit).
Proof.
  intros Hlimit. unfold elide. rewrite slice_to by done. split.
  - intros H. destruct (Z.gtb_spec (Py.len s) limit); [lia |].
    rewrite str_take_all by (unfold Py.len in *; lia).
    apply str_app_nil_r.
  - intros H. destruct (Z.gtb_spec (Py.len s) limit); [| lia].
    split; [done |]. unfold Py.len in *. rewrite str_length_take. lia.
Qed.

Lemma elide_display_witness :
  elide 200 (filler 250) = Py.take 200 (filler 250) ++ "..." ∧
  elide 60 "How to focus?" = "How to focus?".
Proof.
  split.
  - apply (elide_display 200 (filler 250)); [done | vm_compute; reflexivity].
  - apply (elide_display 60 "How to focus?"); [done | vm_compute; discriminate].
Defined.
